(** * CallAudit backend: the manager service

    A shallow embedding of [src/features/manager/services.py] (class
    [ManagerService]) and of the rows of [src/models.py] it handles.

    Python exceptions are values of [exn]; a service method is a function
    from the state of the world (the pseudo-random generator of the
    [random] module, the log of calls made to collaborators, the cookies
    written on the response) to an outcome and a new world. *)

From Stdlib Require Import ZArith Ascii String.
From stdpp Require Import base option list gmap strings.

Local Open Scope string_scope.

(** ** Exceptions and outcomes *)

(** [fastapi.status] codes raised by the service. *)
Inductive http_status :=
| HTTP_400_BAD_REQUEST
| HTTP_401_UNAUTHORIZED
| HTTP_403_FORBIDDEN
| HTTP_404_NOT_FOUND
| HTTP_500_INTERNAL_SERVER_ERROR.

Definition status_code (s : http_status) : Z :=
  match s with
  | HTTP_400_BAD_REQUEST => 400
  | HTTP_401_UNAUTHORIZED => 401
  | HTTP_403_FORBIDDEN => 403
  | HTTP_404_NOT_FOUND => 404
  | HTTP_500_INTERNAL_SERVER_ERROR => 500
  end.

(** The exceptions that occur: [HTTPException] is the one the service
    raises on purpose; the others are ordinary subclasses of [Exception].
    [CollaboratorError] stands for the errors of a collaborator's own
    (a database error of the repository, a malformed hash in the password
    context, a signing error in the token utility). *)
Inductive exn :=
| HTTPException (status : http_status) (detail : string)
| ValueError (msg : string)
| KeyError (key : string)
| AttributeError (attr : string)
| IndexError
| CollaboratorError (msg : string).

Inductive outcome (A : Type) :=
| Return (a : A)
| Raise (e : exn).
Arguments Return {A} a.
Arguments Raise {A} e.

Definition is_raise {A} (o : outcome A) : bool :=
  match o with Raise _ => true | Return _ => false end.

(** ** Collaborator calls and the response sink *)

(** One entry per call that leaves the service. *)
Inductive call :=
| Call_get_manager (email : string)
| Call_get_all_leads (manager_id : string)
| Call_get_all_audit (manager_id : string)
| Call_get_all_flagged_call (manager_id : string)
| Call_get_all_latest_flagged_audit (manager_id : string)
| Call_get_last_7_days_audited_calls (manager_id : string)
| Call_get_auditor_and_audited_call_counts (manager_id : string)
| Call_get_auditors (manager_id : string)
| Call_get_counsellor_data (manager_id : string)
| Call_get_counsellors (manager_id : string)
| Call_create_auditor (auditor_data : gmap string string)
| Call_create_counsellor (counsellor_data : gmap string string)
| Call_verify (secret hash : string)
| Call_hash (secret : string)
| Call_create_jwt_token (claims : gmap string string)
| Call_create_refresh_token (claims : gmap string string).

(** The calls that are methods of [self.repo]. *)
Definition is_repo_call (c : call) : bool :=
  match c with
  | Call_verify _ _ | Call_hash _
  | Call_create_jwt_token _ | Call_create_refresh_token _ => false
  | _ => true
  end.

(** The keyword arguments of [Response.set_cookie]. *)
Record cookie := {
  key : string;
  value : string;
  httponly : bool;
  secure : bool;
  samesite : string;
  max_age : Z
}.

(** ** The world and the service monad *)

Record world := {
  rand : nat -> nat;      (* the draws the [random] module will make *)
  calls : list call;      (* collaborator calls so far, oldest first *)
  cookies : list cookie   (* cookies set on the response, oldest first *)
}.

Definition Svc (A : Type) : Type := world -> outcome A * world.

Definition ret {A} (a : A) : Svc A := fun w => (Return a, w).

Definition raise {A} (e : exn) : Svc A := fun w => (Raise e, w).

Definition bind {A B} (m : Svc A) (k : A -> Svc B) : Svc B :=
  fun w =>
    match m w with
    | (Return a, w') => k a w'
    | (Raise e, w') => (Raise e, w')
    end.

Notation "x <- m ;; k" := (bind m (fun x => k))
  (at level 100, m at next level, right associativity).
Notation "m ;;; k" := (bind m (fun _ => k))
  (at level 100, right associativity).

(** The handler pair every public method ends with:
<<
    except HTTPException as e: raise e
    except Exception as e:     raise HTTPException(500, detail)
>>
*)
Definition except_http {A} (detail : string) (body : Svc A) : Svc A :=
  fun w =>
    match body w with
    | (Return a, w') => (Return a, w')
    | (Raise (HTTPException s d), w') => (Raise (HTTPException s d), w')
    | (Raise _, w') =>
        (Raise (HTTPException HTTP_500_INTERNAL_SERVER_ERROR detail), w')
    end.

(** What a collaborator answers: a value, or an exception it raises, which
    may be any exception, an [HTTPException] included. *)
Inductive reply (A : Type) :=
| Answers (a : A)
| Fails (e : exn).
Arguments Answers {A} a.
Arguments Fails {A} e.

(** Calling a collaborator logs the call and yields its answer. *)
Definition invoke {A} (c : call) (r : reply A) : Svc A :=
  fun w =>
    let w' := {| rand := rand w; calls := calls w ++ [c]; cookies := cookies w |} in
    match r with
    | Answers a => (Return a, w')
    | Fails e => (Raise e, w')
    end.

(** [response.set_cookie(...)]. *)
Definition set_cookie (c : cookie) : Svc unit :=
  fun w =>
    (Return tt, {| rand := rand w; calls := calls w; cookies := cookies w ++ [c] |}).

(** ** The [random] module *)

(** [_randbelow(n)]: the next draw, reduced below [n]. *)
Definition randbelow (n : nat) : Svc nat :=
  fun w =>
    (Return (rand w 0 mod n),
     {| rand := fun i => rand w (S i); calls := calls w; cookies := cookies w |}).

(** [random.choice(seq)]: [seq[_randbelow(len(seq))]]; [IndexError] on an
    empty sequence. *)
Definition choice (seq : list ascii) : Svc ascii :=
  match seq with
  | [] => raise IndexError
  | _ =>
      i <- randbelow (length seq) ;;
      match seq !! i with
      | Some c => ret c
      | None => raise IndexError
      end
  end.

(** [random.choices(population, k=k)]: [k] independent choices. *)
Fixpoint choices (population : list ascii) (k : nat) : Svc (list ascii) :=
  match k with
  | O => ret []
  | S k' =>
      c <- choice population ;;
      cs <- choices population k' ;;
      ret (c :: cs)
  end.

(** [x[i], x[j] = x[j], x[i]]; [None] when an index is out of range
    (Python raises [IndexError]). *)
Definition swap {A} (x : list A) (i j : nat) : option (list A) :=
  match x !! i, x !! j with
  | Some xi, Some xj => Some (<[j := xi]> (<[i := xj]> x))
  | _, _ => None
  end.

(** The loop of [random.shuffle]:
<<
    for i in reversed(range(1, len(x))):
        j = randbelow(i + 1)
        x[i], x[j] = x[j], x[i]
>>
    [shuffle_from i x] runs the iterations [i, i-1, ..., 1]. *)
Fixpoint shuffle_from (i : nat) (x : list ascii) : Svc (list ascii) :=
  match i with
  | O => ret x
  | S i' =>
      j <- randbelow (S i) ;;
      match swap x i j with
      | Some x' => shuffle_from i' x'
      | None => raise IndexError
      end
  end.

Definition shuffle (x : list ascii) : Svc (list ascii) :=
  shuffle_from (length x - 1) x.

(** ** The [string] module *)

Definition ascii_lowercase : list ascii :=
  list_ascii_of_string "abcdefghijklmnopqrstuvwxyz".
Definition ascii_uppercase : list ascii :=
  list_ascii_of_string "ABCDEFGHIJKLMNOPQRSTUVWXYZ".
Definition ascii_letters : list ascii :=
  (ascii_lowercase ++ ascii_uppercase)%list.
Definition digits : list ascii := list_ascii_of_string "0123456789".
(** [!], the double quote (code 34), then [#$%&'()*+,-./:;<=>?@[\]^_`{|}~]. *)
Definition punctuation : list ascii :=
  (list_ascii_of_string "!" ++ [ascii_of_nat 34] ++
   list_ascii_of_string "#$%&'()*+,-./:;<=>?@[\]^_`{|}~")%list.

(** Character classes by code point, as ASCII defines them. *)
Definition in_range (lo hi : nat) (c : ascii) : bool :=
  (lo <=? nat_of_ascii c)%nat && (nat_of_ascii c <=? hi)%nat.
Definition is_lower (c : ascii) : bool := in_range 97 122 c.
Definition is_upper (c : ascii) : bool := in_range 65 90 c.
Definition is_digit (c : ascii) : bool := in_range 48 57 c.
Definition is_punct (c : ascii) : bool :=
  in_range 33 47 c || in_range 58 64 c || in_range 91 96 c || in_range 123 126 c.

(** ** [ManagerService.__generate_strong_password] *)

Definition __generate_strong_password (length : Z) : Svc string :=
  if (length <? 4)%Z then
    raise (ValueError
      "Password length should be at least 4 to include all character types.")
  else
    c1 <- choice ascii_lowercase ;;
    c2 <- choice ascii_uppercase ;;
    c3 <- choice digits ;;
    c4 <- choice punctuation ;;
    let password := [c1; c2; c3; c4] in
    let all_chars := (ascii_letters ++ digits ++ punctuation)%list in
    rest <- choices all_chars (Z.to_nat (length - 4)) ;;
    password <- shuffle (password ++ rest)%list ;;
    ret (string_of_list_ascii password).

(** ** Rows of [models.py]

    The columns the service layer reads; the timestamps and the ORM
    relationships play no part in it. *)

Module Manager.
Record t := {
  id : string;
  name : string;
  email : string;
  phone : option string;
  password : string   (* the stored hash *)
}.
End Manager.

Module Auditor.
Record t := {
  id : string;
  manager_id : string;
  name : string;
  email : string;
  phone : option string;
  password : string;
  is_active : bool
}.
End Auditor.

Module Counsellor.
Record t := {
  id : string;
  auditor_id : string;
  manager_id : string;
  name : string;
  email : string;
  phone : option string;
  is_active : bool
}.
End Counsellor.

(** What a caller may pass where the signature says [manager: Manager]:
    Python checks nothing, so it can be any object. *)
Inductive pyobj :=
| ManagerObj (m : Manager.t)
| AuditorObj (a : Auditor.t)
| CounsellorObj (c : Counsellor.t)
| NoneObj.

(** [isinstance(o, Manager)]. *)
Definition isinstance_Manager (o : pyobj) : bool :=
  match o with ManagerObj _ => true | _ => false end.

(** The attribute [id] of an object, if it has one. *)
Definition attr_id (o : pyobj) : option string :=
  match o with
  | ManagerObj m => Some (Manager.id m)
  | AuditorObj a => Some (Auditor.id a)
  | CounsellorObj c => Some (Counsellor.id c)
  | NoneObj => None
  end.

(** [o.id]: [AttributeError] when the object has no such attribute. *)
Definition getattr_id (o : pyobj) : Svc string :=
  match attr_id o with
  | Some i => ret i
  | None => raise (AttributeError "id")
  end.

(** [d[k]]: [KeyError] when the key is absent. *)
Definition getitem {V} (d : gmap string V) (k : string) : Svc V :=
  match d !! k with
  | Some v => ret v
  | None => raise (KeyError k)
  end.

(** Truth values: [None], the empty string, the empty list and the empty
    dict are falsy. Each function returns the value when it is truthy. *)
Definition truthy_str (t : option string) : option string :=
  match t with
  | Some s => if String.eqb s "" then None else Some s
  | None => None
  end.

Definition truthy_list {A} (l : option (list A)) : option (list A) :=
  match l with
  | Some (x :: l') => Some (x :: l')
  | _ => None
  end.

Definition truthy_dict {V} (d : option (gmap string V)) : option (gmap string V) :=
  match d with
  | Some m => if decide (m = ∅) then None else Some m
  | None => None
  end.

Definition is_None {A} (x : option A) : bool :=
  match x with None => true | Some _ => false end.

(** [any(...)]. *)
Definition any (l : list bool) : bool := existsb (fun b => b) l.

(** ** Response schemas

    [features/manager/schemas.py] and [features/auditor/schemas.py]:
    records of the keyword arguments the service constructs them with. *)

Module User.
Record t := { id : string; name : string; email : string; role : string }.
End User.

Module LoginSchema.
Record t := { success : bool; message : string; user : User.t }.
End LoginSchema.

Module ManagerAnalyticsResponse.
(** The five data fields hold the fetched values as they came. *)
Record t {FlaggedAudit DaySeries : Type} := {
  success : bool;
  message : string;
  total_assigned_leads : option Z;
  total_audited_calls : option Z;
  flagged_calls : option Z;
  latest_flagged_audit : option (list FlaggedAudit);
  last_7_days_data : option DaySeries
}.
Arguments t : clear implicits.
End ManagerAnalyticsResponse.

Module AuditorAnalyticsResponse.
Record t {AuditorRow : Type} := {
  success : bool;
  message : string;
  number_of_auditors : Z;
  total_audited_calls : Z;
  auditors : list AuditorRow
}.
Arguments t : clear implicits.
End AuditorAnalyticsResponse.

Module CounsellorAnalysisResponse.
Record t {CounsellorRow : Type} := {
  success : bool;
  message : string;
  total_counsellors : Z;
  total_calls_made : Z;
  counsellors : list CounsellorRow
}.
Arguments t : clear implicits.
End CounsellorAnalysisResponse.

Module FlaggedAuditsResponse.
Record t {FlaggedAudit : Type} := {
  success : bool;
  message : string;
  flagged_audits : list FlaggedAudit
}.
Arguments t : clear implicits.
End FlaggedAuditsResponse.

Module NewUserCreatedSchema.
Record t := { success : bool; message : string; password : string }.
End NewUserCreatedSchema.

(** ** Collaborators

    The repository, the password context ([passlib.CryptContext]) and the
    token utility ([core.jwt_util]) are given: the service is verified
    for every behaviour they may have. The rows and series the repository
    hands out pass through the service untouched, so their types are left
    open. *)

Record ManagerRepository {FlaggedAudit DaySeries AuditorRow CounsellorRow : Type} := {
  get_manager : string -> reply (option Manager.t);
  get_all_leads : string -> reply (option Z);
  get_all_audit : string -> reply (option Z);
  get_all_flagged_call : string -> reply (option Z);
  get_all_latest_flagged_audit : string -> reply (option (list FlaggedAudit));
  get_last_7_days_audited_calls : string -> reply (option DaySeries);
  get_auditor_and_audited_call_counts : string -> reply (option (gmap string Z));
  get_auditors : string -> reply (option (list AuditorRow));
  get_counsellor_data : string -> reply (option (gmap string Z));
  get_counsellors : string -> reply (option (list CounsellorRow));
  create_auditor : gmap string string -> reply bool;
  create_counsellor : gmap string string -> reply bool
}.
Arguments ManagerRepository : clear implicits.

Record CryptContext := {
  verify : string -> string -> reply bool;
  hash : string -> reply string
}.

Record JWTUtil := {
  create_jwt_token : gmap string string -> reply (option string);
  create_refresh_token : gmap string string -> reply (option string)
}.

(** [self]: the repository and the token utility of [__init__], and the
    [CryptContext(schemes=["bcrypt"], deprecated="auto")] the methods
    build. *)
Record ManagerService {FlaggedAudit DaySeries AuditorRow CounsellorRow : Type} := {
  repo : ManagerRepository FlaggedAudit DaySeries AuditorRow CounsellorRow;
  jwt_util : JWTUtil;
  pwd_context : CryptContext
}.
Arguments ManagerService : clear implicits.

(** ** [ManagerService] *)

Section Service.
Context {FlaggedAudit DaySeries AuditorRow CounsellorRow : Type}.
Variable self : ManagerService FlaggedAudit DaySeries AuditorRow CounsellorRow.

Definition login_manager (email password : string) : Svc LoginSchema.t :=
  except_http "Internal server error occurred while manager login" (
    manager <- invoke (Call_get_manager email) (get_manager (repo self) email) ;;
    match manager with
    | None =>
        raise (HTTPException HTTP_404_NOT_FOUND "No manager found with given email")
    | Some manager =>
        is_password_correct <-
          invoke (Call_verify password (Manager.password manager))
                 (verify (pwd_context self) password (Manager.password manager)) ;;
        if negb is_password_correct then
          raise (HTTPException HTTP_401_UNAUTHORIZED "Password not matched")
        else
          let claims : gmap string string :=
            list_to_map [("id", Manager.id manager);
                         ("name", Manager.name manager);
                         ("email", Manager.email manager);
                         ("role", "manager")] in
          token <- invoke (Call_create_jwt_token claims)
                          (create_jwt_token (jwt_util self) claims) ;;
          match truthy_str token with
          | None =>
              raise (HTTPException HTTP_500_INTERNAL_SERVER_ERROR
                       "Failed to generate JWT token")
          | Some token =>
              let claims : gmap string string :=
                list_to_map [("id", Manager.id manager)] in
              refresh_token <- invoke (Call_create_refresh_token claims)
                                      (create_refresh_token (jwt_util self) claims) ;;
              match truthy_str refresh_token with
              | None =>
                  raise (HTTPException HTTP_500_INTERNAL_SERVER_ERROR
                           "Failed to generate refresh token")
              | Some refresh_token =>
                  set_cookie {| key := "token";
                                value := token;
                                httponly := true;
                                secure := false;
                                samesite := "lax";
                                max_age := 24 * 60 * 60 |} ;;;
                  set_cookie {| key := "refresh_token";
                                value := refresh_token;
                                httponly := true;
                                secure := true;
                                samesite := "lax";
                                max_age := 7 * 24 * 60 * 60 |} ;;;
                  ret {| LoginSchema.success := true;
                         LoginSchema.message := "Manager logged in succesfully.";
                         LoginSchema.user :=
                           {| User.id := Manager.id manager;
                              User.name := Manager.name manager;
                              User.email := Manager.email manager;
                              User.role := "manager" |} |}
              end
          end
    end).

Definition get_manager_analytics (manager : pyobj)
  : Svc (ManagerAnalyticsResponse.t FlaggedAudit DaySeries) :=
  except_http "Internal server error while getting manager analysis for manager" (
    if negb (isinstance_Manager manager) then
      raise (HTTPException HTTP_403_FORBIDDEN
               "Current user is not authorized as manager")
    else
      manager_id <- getattr_id manager ;;
      leads <- invoke (Call_get_all_leads manager_id)
                      (get_all_leads (repo self) manager_id) ;;
      manager_id <- getattr_id manager ;;
      audits <- invoke (Call_get_all_audit manager_id)
                       (get_all_audit (repo self) manager_id) ;;
      manager_id <- getattr_id manager ;;
      flagged_calls <- invoke (Call_get_all_flagged_call manager_id)
                              (get_all_flagged_call (repo self) manager_id) ;;
      manager_id <- getattr_id manager ;;
      latest_flagged_audit <-
        invoke (Call_get_all_latest_flagged_audit manager_id)
               (get_all_latest_flagged_audit (repo self) manager_id) ;;
      manager_id <- getattr_id manager ;;
      last_7_days_data <-
        invoke (Call_get_last_7_days_audited_calls manager_id)
               (get_last_7_days_audited_calls (repo self) manager_id) ;;
      if any [is_None leads; is_None audits; is_None flagged_calls;
              is_None latest_flagged_audit; is_None last_7_days_data] then
        raise (HTTPException HTTP_500_INTERNAL_SERVER_ERROR
                 "Internal server error while fetching data from database")
      else
        ret {| ManagerAnalyticsResponse.success := true;
               ManagerAnalyticsResponse.message :=
                 "Succesfully analyzed audits for manager";
               ManagerAnalyticsResponse.total_assigned_leads := leads;
               ManagerAnalyticsResponse.total_audited_calls := audits;
               ManagerAnalyticsResponse.flagged_calls := flagged_calls;
               ManagerAnalyticsResponse.latest_flagged_audit := latest_flagged_audit;
               ManagerAnalyticsResponse.last_7_days_data := last_7_days_data |}).

Definition get_auditors_analytics (manager : pyobj)
  : Svc (AuditorAnalyticsResponse.t AuditorRow) :=
  except_http "Internal server error while getting audit analysis." (
    manager_id <- getattr_id manager ;;
    auditors_data <-
      invoke (Call_get_auditor_and_audited_call_counts manager_id)
             (get_auditor_and_audited_call_counts (repo self) manager_id) ;;
    manager_id <- getattr_id manager ;;
    auditors <- invoke (Call_get_auditors manager_id)
                       (get_auditors (repo self) manager_id) ;;
    match truthy_dict auditors_data, truthy_list auditors with
    | Some auditors_data, Some auditors =>
        number_of_auditors <- getitem auditors_data "number_of_auditors" ;;
        total_audited_calls <- getitem auditors_data "total_audited_calls" ;;
        ret {| AuditorAnalyticsResponse.success := true;
               AuditorAnalyticsResponse.message :=
                 "Succesfully got the auditors data under manager";
               AuditorAnalyticsResponse.number_of_auditors := number_of_auditors;
               AuditorAnalyticsResponse.total_audited_calls := total_audited_calls;
               AuditorAnalyticsResponse.auditors := auditors |}
    | _, _ =>
        raise (HTTPException HTTP_500_INTERNAL_SERVER_ERROR
                 "Internal server error occurred while  getting auditors data")
    end).

Definition get_counsellor_analysis (manager : pyobj)
  : Svc (CounsellorAnalysisResponse.t CounsellorRow) :=
  except_http "Internal server error while getting counsellor analysis." (
    manager_id <- getattr_id manager ;;
    counsellor_data <- invoke (Call_get_counsellor_data manager_id)
                              (get_counsellor_data (repo self) manager_id) ;;
    manager_id <- getattr_id manager ;;
    counsellors <- invoke (Call_get_counsellors manager_id)
                          (get_counsellors (repo self) manager_id) ;;
    match truthy_list counsellors, truthy_dict counsellor_data with
    | Some counsellors, Some counsellor_data =>
        total_counsellors <- getitem counsellor_data "total_counsellors" ;;
        total_calls_made <- getitem counsellor_data "total_counsellors" ;;
        ret {| CounsellorAnalysisResponse.success := true;
               CounsellorAnalysisResponse.message :=
                 "Succesfully retrieved counsellors data";
               CounsellorAnalysisResponse.total_counsellors := total_counsellors;
               CounsellorAnalysisResponse.total_calls_made := total_calls_made;
               CounsellorAnalysisResponse.counsellors := counsellors |}
    | _, _ =>
        raise (HTTPException HTTP_500_INTERNAL_SERVER_ERROR
                 "Internal sever error occurred while fetching counsellor data")
    end).

Definition get_flagged_audits (manager : pyobj)
  : Svc (FlaggedAuditsResponse.t FlaggedAudit) :=
  except_http "Internal server error while getting flagged audits." (
    manager_id <- getattr_id manager ;;
    flagged_audits <- invoke (Call_get_all_latest_flagged_audit manager_id)
                             (get_all_latest_flagged_audit (repo self) manager_id) ;;
    match flagged_audits with
    | Some [] =>
        ret {| FlaggedAuditsResponse.success := true;
               FlaggedAuditsResponse.message :=
                 "Succesfully retrieved the flagged audits";
               FlaggedAuditsResponse.flagged_audits := [] |}
    | _ =>
        match truthy_list flagged_audits with
        | None =>
            raise (HTTPException HTTP_500_INTERNAL_SERVER_ERROR
                     "Internal server error occurred while fetching flagged audits.")
        | Some flagged_audits =>
            ret {| FlaggedAuditsResponse.success := true;
                   FlaggedAuditsResponse.message :=
                     "Successfully retrieved the flagged audits";
                   FlaggedAuditsResponse.flagged_audits := flagged_audits |}
        end
    end).

Definition create_new_auditor (auditor_data : gmap string string)
  : Svc NewUserCreatedSchema.t :=
  except_http "Internal server error occurred while creating new auditor" (
    generated <- __generate_strong_password 10 ;;
    let auditor_data := <["password" := generated]> auditor_data in
    plain <- getitem auditor_data "password" ;;
    hashed <- invoke (Call_hash plain) (hash (pwd_context self) plain) ;;
    let auditor_data := <["password" := hashed]> auditor_data in
    is_auditor_created <- invoke (Call_create_auditor auditor_data)
                                 (create_auditor (repo self) auditor_data) ;;
    if negb is_auditor_created then
      raise (HTTPException HTTP_500_INTERNAL_SERVER_ERROR
               "Internal server error occurred while creating new auditor")
    else
      password <- getitem auditor_data "password" ;;
      ret {| NewUserCreatedSchema.success := true;
             NewUserCreatedSchema.message := "Auditor created succesfully";
             NewUserCreatedSchema.password := password |}).

Definition create_new_counsellor (counsellor_data : gmap string string)
  : Svc NewUserCreatedSchema.t :=
  except_http "Internal server error occurred while creating new counsellor" (
    auditor_id <- getitem counsellor_data "auditor_id" ;;
    if String.eqb auditor_id "" then
      raise (HTTPException HTTP_500_INTERNAL_SERVER_ERROR
               "Auditor ID needed for creating counsellor")
    else
      is_counsellor_created <- invoke (Call_create_counsellor counsellor_data)
                                      (create_counsellor (repo self) counsellor_data) ;;
      if negb is_counsellor_created then
        raise (HTTPException HTTP_500_INTERNAL_SERVER_ERROR
                 "Internal server error occurred while creating new counsellor")
      else
        ret {| NewUserCreatedSchema.success := true;
               NewUserCreatedSchema.message := "Counsellor created succesfully";
               NewUserCreatedSchema.password := "Not needed" |}).

Definition add_new_user (role name email phone auditor_id manager_id : string)
  : Svc NewUserCreatedSchema.t :=
  except_http
    "Internal server error occurred while creating new auditor or counsellor" (
    if String.eqb role "auditor" then
      create_new_auditor
        (list_to_map [("email", email); ("name", name); ("phone", phone);
                      ("manager_id", manager_id)])
    else if String.eqb role "counsellor" then
      create_new_counsellor
        (list_to_map [("email", email); ("name", name); ("phone", phone);
                      ("manager_id", manager_id); ("auditor_id", auditor_id)])
    else
      raise (HTTPException HTTP_400_BAD_REQUEST
               "No matching role to add, the role should be auditor or counsellor")).

End Service.

(** ** [ManagerService]: accounts, flags and managers

    The remaining methods of [self.repo]. Each one is a computation in the
    world, whatever the repository makes of it: it may answer, raise, and
    leave its own traces. *)

Module BaseResponse.
Record t := { success : bool; message : string }.
End BaseResponse.

Module AccountRepository.
Record t := {
  deactivate_auditor : string -> Svc bool;
  activate_auditor : string -> Svc bool;
  deactivate_counsellor : string -> Svc bool;
  activate_counsellor : string -> Svc bool;
  unflag_audit : string -> Svc bool;
  create_new_manager : gmap string string -> Svc bool
}.
End AccountRepository.

Section Accounts.
Variable accounts : AccountRepository.t.

Definition deactivate_auditor (auditor_id : string) : Svc BaseResponse.t :=
  except_http "Internal server error occurred while deactivating auditor" (
    if String.eqb auditor_id "" then
      raise (HTTPException HTTP_500_INTERNAL_SERVER_ERROR "Auditor id not found")
    else
      is_auditor_deleted <- AccountRepository.deactivate_auditor accounts auditor_id ;;
      if negb is_auditor_deleted then
        raise (HTTPException HTTP_500_INTERNAL_SERVER_ERROR
                 "Internal server error occurred while deactivating auditor")
      else
        ret {| BaseResponse.success := true;
               BaseResponse.message :=
                 "Succesfully deactivated auditor with id: " ++ auditor_id |}).

Definition activate_auditor (auditor_id : string) : Svc BaseResponse.t :=
  except_http "Internal server error occurred while activating auditor" (
    if String.eqb auditor_id "" then
      raise (HTTPException HTTP_500_INTERNAL_SERVER_ERROR "Auditor id not found")
    else
      is_auditor_deleted <- AccountRepository.activate_auditor accounts auditor_id ;;
      if negb is_auditor_deleted then
        raise (HTTPException HTTP_500_INTERNAL_SERVER_ERROR
                 "Internal server error occurred while activating auditor")
      else
        ret {| BaseResponse.success := true;
               BaseResponse.message :=
                 "Succesfully activated auditor with id: " ++ auditor_id |}).

Definition deactivate_counsellor (counsellor_id : string) : Svc BaseResponse.t :=
  except_http "Internal server error occurred while deactivating counsellor" (
    if String.eqb counsellor_id "" then
      raise (HTTPException HTTP_500_INTERNAL_SERVER_ERROR "Counsellor id not found")
    else
      is_counsellor_deleted <-
        AccountRepository.deactivate_counsellor accounts counsellor_id ;;
      if negb is_counsellor_deleted then
        raise (HTTPException HTTP_500_INTERNAL_SERVER_ERROR
                 "Internal server error occurred while deactivate counsellor")
      else
        ret {| BaseResponse.success := true;
               BaseResponse.message :=
                 "Succesfully deactivate counsellor with id: " ++ counsellor_id |}).

Definition activate_counsellor (counsellor_id : string) : Svc BaseResponse.t :=
  except_http "Internal server error occurred while activating counsellor" (
    if String.eqb counsellor_id "" then
      raise (HTTPException HTTP_500_INTERNAL_SERVER_ERROR "Counsellor id not found")
    else
      is_counsellor_deleted <-
        AccountRepository.activate_counsellor accounts counsellor_id ;;
      if negb is_counsellor_deleted then
        raise (HTTPException HTTP_500_INTERNAL_SERVER_ERROR
                 "Internal server error occurred while activate counsellor")
      else
        ret {| BaseResponse.success := true;
               BaseResponse.message :=
                 "Succesfully activated counsellor with id: " ++ counsellor_id |}).

Definition deactivate_auditor_or_counsellor (counsellor_id auditor_id role : string)
  : Svc BaseResponse.t :=
  except_http
    "Internal server error occurred while deactivating auditor or counsellor" (
    if String.eqb role "auditor" then deactivate_auditor auditor_id
    else if String.eqb role "counsellor" then deactivate_counsellor counsellor_id
    else raise (HTTPException HTTP_400_BAD_REQUEST "No valid role to deactivate")).

Definition activate_auditor_or_counsellor (counsellor_id auditor_id role : string)
  : Svc BaseResponse.t :=
  except_http
    "Internal server error occurred while activating auditor or counsellor" (
    if String.eqb role "auditor" then activate_auditor auditor_id
    else if String.eqb role "counsellor" then activate_counsellor counsellor_id
    else raise (HTTPException HTTP_400_BAD_REQUEST "No valid role to activate")).

Definition unflag_flagged_audit (manager : pyobj) (audit_id : string)
  : Svc BaseResponse.t :=
  except_http "Internal server error occurred while unflagging audit" (
    if negb (isinstance_Manager manager) then
      raise (HTTPException HTTP_401_UNAUTHORIZED
               "Unauthorised access, user is not manager.")
    else
      is_unflagged <- AccountRepository.unflag_audit accounts audit_id ;;
      if negb is_unflagged then
        raise (HTTPException HTTP_500_INTERNAL_SERVER_ERROR
                 "Internal server error occurred while unflagging audit")
      else
        ret {| BaseResponse.success := true;
               BaseResponse.message :=
                 "Succesfully unflagged given audit with id: " ++ audit_id |}).

Definition add_new_manager (manager_data : gmap string string)
  : Svc BaseResponse.t :=
  except_http "Internal Server error occurred while creating new manager" (
    is_created <- AccountRepository.create_new_manager accounts manager_data ;;
    if negb is_created then
      raise (HTTPException HTTP_500_INTERNAL_SERVER_ERROR
               "Failed to create new manager")
    else
      ret {| BaseResponse.success := true;
             BaseResponse.message := "Manager created successfully." |}).

End Accounts.

(** ** Vocabulary of the statements *)

(** Only the random state may differ between [w] and [w']. *)
Definition same_io (w w' : world) : Prop :=
  calls w' = calls w ∧ cookies w' = cookies w.

(** Some character of [s] is of the class [p]. *)
Definition has_class (p : ascii → bool) (s : string) : bool :=
  existsb p (list_ascii_of_string s).

(** What the handler pair makes of an exception: an [HTTPException] is
    raised again as it is, any other becomes status 500 with [detail]. *)
Definition handled (detail : string) (e : exn) : exn :=
  match e with
  | HTTPException status d => HTTPException status d
  | _ => HTTPException HTTP_500_INTERNAL_SERVER_ERROR detail
  end.

(** The world after one more collaborator call. *)
Definition logged (w : world) (cs : list call) : world :=
  {| rand := rand w; calls := calls w ++ cs; cookies := cookies w |}.

(** The claims the session token is issued for. *)
Definition session_claims (m : Manager.t) : gmap string string :=
  list_to_map [("id", Manager.id m); ("name", Manager.name m);
               ("email", Manager.email m); ("role", "manager")].

Definition refresh_claims (m : Manager.t) : gmap string string :=
  list_to_map [("id", Manager.id m)].

(** ** A concrete deployment, to run the service on

    One manager, one auditor and one counsellor; a password context that
    marks a hash by a prefix; a token utility that tags the subject id. *)

Definition demo_manager : Manager.t :=
  {| Manager.id := "mgr-1"; Manager.name := "Meera";
     Manager.email := "meera@example.com"; Manager.phone := None;
     Manager.password := "$2b$12$s3cret" |}.

Definition demo_auditor : Auditor.t :=
  {| Auditor.id := "aud-1"; Auditor.manager_id := "mgr-1";
     Auditor.name := "Asha"; Auditor.email := "asha@example.com";
     Auditor.phone := None; Auditor.password := "$2b$12$pass";
     Auditor.is_active := true |}.

Definition demo_counsellor : Counsellor.t :=
  {| Counsellor.id := "cou-1"; Counsellor.auditor_id := "aud-1";
     Counsellor.manager_id := "mgr-1"; Counsellor.name := "Ravi";
     Counsellor.email := "ravi@example.com"; Counsellor.phone := None;
     Counsellor.is_active := true |}.

(** The repository, given what its audit queries answer. *)
Definition demo_repo (audits : option Z) (flagged : option (list string))
  : ManagerRepository string (list Z) Auditor.t Counsellor.t :=
  {| get_manager := fun email =>
       Answers (if String.eqb email "meera@example.com"
                then Some demo_manager else None);
     get_all_leads := fun _ => Answers (Some 12%Z);
     get_all_audit := fun _ => Answers audits;
     get_all_flagged_call := fun _ => Answers (Some 2%Z);
     get_all_latest_flagged_audit := fun _ => Answers flagged;
     get_last_7_days_audited_calls := fun _ => Answers (Some [1; 0; 2; 3; 0; 1; 1]%Z);
     get_auditor_and_audited_call_counts := fun _ =>
       Answers (Some (list_to_map [("number_of_auditors", 1%Z);
                                   ("total_audited_calls", 8%Z)]));
     get_auditors := fun _ => Answers (Some [demo_auditor]);
     get_counsellor_data := fun _ =>
       Answers (Some (list_to_map [("total_counsellors", 1%Z);
                                   ("total_calls_made", 40%Z)]));
     get_counsellors := fun _ => Answers (Some [demo_counsellor]);
     create_auditor := fun _ => Answers true;
     create_counsellor := fun _ => Answers true |}.

Definition demo_context : CryptContext :=
  {| verify := fun secret stored => Answers (String.eqb ("$2b$12$" ++ secret) stored);
     hash := fun secret => Answers ("$2b$12$" ++ secret) |}.

Definition demo_jwt : JWTUtil :=
  {| create_jwt_token := fun claims =>
       Answers (Some ("jwt." ++ default "" (claims !! "id")));
     create_refresh_token := fun claims =>
       Answers (Some ("refresh." ++ default "" (claims !! "id"))) |}.

Definition demo_service (audits : option Z) (flagged : option (list string))
  : ManagerService string (list Z) Auditor.t Counsellor.t :=
  {| repo := demo_repo audits flagged;
     jwt_util := demo_jwt;
     pwd_context := demo_context |}.

Definition w0 : world :=
  {| rand := fun i => (i * 7 + 3)%nat; calls := []; cookies := [] |}.

(** An outcome that lets an exception other than [HTTPException] out. *)
Definition raw_exception {A} (o : outcome A) : bool :=
  match o with
  | Return _ => false
  | Raise (HTTPException _ _) => false
  | Raise _ => true
  end.

(** The characters [__generate_strong_password] draws from. *)
Definition all_chars : list ascii :=
  (ascii_letters ++ digits ++ punctuation)%list.

(** An accounts repository that refuses the id [ghost] and accepts every
    other. *)
Definition demo_accounts : AccountRepository.t :=
  let visit (id : string) : Svc bool :=
    fun w => (Return (negb (String.eqb id "ghost")), w) in
  {| AccountRepository.deactivate_auditor := visit;
     AccountRepository.activate_auditor := visit;
     AccountRepository.deactivate_counsellor := visit;
     AccountRepository.activate_counsellor := visit;
     AccountRepository.unflag_audit := visit;
     AccountRepository.create_new_manager := fun _ w => (Return true, w) |}.

(** The deployment with rosters and counts of one's choosing. *)
Definition roster_service (data : option (gmap string Z))
    (auditors : option (list Auditor.t)) (counsellors : option (list Counsellor.t))
  : ManagerService string (list Z) Auditor.t Counsellor.t :=
  {| repo :=
       {| get_manager := get_manager (demo_repo (Some 8%Z) (Some []));
          get_all_leads := fun _ => Answers (Some 12%Z);
          get_all_audit := fun _ => Answers None;
          get_all_flagged_call := fun _ => Answers (Some 2%Z);
          get_all_latest_flagged_audit := fun _ => Answers (Some ["audit-7"]);
          get_last_7_days_audited_calls := fun _ => Answers None;
          get_auditor_and_audited_call_counts := fun _ => Answers data;
          get_auditors := fun _ => Answers auditors;
          get_counsellor_data := fun _ => Answers data;
          get_counsellors := fun _ => Answers counsellors;
          create_auditor := fun _ => Answers true;
          create_counsellor := fun _ => Answers true |};
     jwt_util := demo_jwt;
     pwd_context := demo_context |}.

(** The deployment with a token utility that answers as one chooses. *)
Definition token_service (token refresh_token : option string)
  : ManagerService string (list Z) Auditor.t Counsellor.t :=
  {| repo := demo_repo (Some 8%Z) (Some []);
     jwt_util := {| create_jwt_token := fun _ => Answers token;
                    create_refresh_token := fun _ => Answers refresh_token |};
     pwd_context := demo_context |}.

(** Unfolds the monad so that a method reduces on the replies it gets. *)
Ltac svc_unfold :=
  unfold getattr_id, getitem, set_cookie, invoke, except_http, bind, ret, raise.

(** Reduces the matches on outcomes that are now known. *)
Ltac svc_beta := cbv beta iota zeta; cbn [negb].

(** * Properties *)

(** ** The random module leaves calls and cookies alone *)

Lemma same_io_refl w : same_io w w.
Proof. by split. Qed.

Lemma same_io_trans w1 w2 w3 : same_io w1 w2 → same_io w2 w3 → same_io w1 w3.
Proof. intros [? ?] [? ?]. split; congruence. Qed.

Lemma randbelow_spec n w :
  (0 < n)%nat →
  ∃ j w', randbelow n w = (Return j, w') ∧ (j < n)%nat ∧ same_io w w'.
Proof.
  intros Hn. eexists _, _. split; [reflexivity|]. split.
  - apply Nat.mod_upper_bound. lia.
  - by split.
Qed.

Lemma choice_spec seq w :
  seq ≠ [] →
  ∃ c w', choice seq w = (Return c, w') ∧ c ∈ seq ∧ same_io w w'.
Proof.
  intros Hne.
  destruct (randbelow_spec (length seq) w) as (j & w' & Hr & Hj & Hio).
  { destruct seq; [done | simpl; lia]. }
  destruct (lookup_lt_is_Some_2 seq j Hj) as [c Hc].
  exists c, w'. split; [|split; [|done]].
  - destruct seq as [|a seq']; [done|].
    unfold choice, bind. rewrite Hr, Hc. reflexivity.
  - by eapply list_elem_of_lookup_2.
Qed.

Lemma choices_spec population k w :
  population ≠ [] →
  ∃ cs w', choices population k w = (Return cs, w') ∧ length cs = k ∧
           Forall (λ c, c ∈ population) cs ∧ same_io w w'.
Proof.
  intros Hne. revert w. induction k as [|k IH]; intros w.
  - exists [], w. repeat split; constructor.
  - destruct (choice_spec population w Hne) as (c & w1 & Hc & Hin & Hio1).
    destruct (IH w1) as (cs & w2 & Hcs & Hlen & Hall & Hio2).
    exists (c :: cs), w2. split; [|split; [|split]].
    + simpl. unfold bind at 1. rewrite Hc. unfold bind at 1. rewrite Hcs. reflexivity.
    + simpl. by rewrite Hlen.
    + by constructor.
    + by eapply same_io_trans.
Qed.

(** ** Swapping two cells permutes the list *)

Lemma insert_Permutation {A} (x : list A) i a b :
  x !! i = Some a → b :: x ≡ₚ a :: <[i := b]> x.
Proof.
  revert i. induction x as [|c x IH]; intros [|i] Hi; simplify_eq/=.
  - apply Permutation_swap.
  - etrans; [apply Permutation_swap|].
    etrans; [apply Permutation_skip, (IH i Hi)|]. apply Permutation_swap.
Qed.

Lemma swap_Permutation {A} (x x' : list A) i j :
  swap x i j = Some x' → x' ≡ₚ x.
Proof.
  unfold swap. intros Hs.
  destruct (x !! i) as [xi|] eqn:Hi; [|done].
  destruct (x !! j) as [xj|] eqn:Hj; [|done].
  simplify_eq. destruct (decide (i = j)) as [->|Hne].
  - simplify_eq. rewrite list_insert_insert_eq. by rewrite list_insert_id.
  - apply (Permutation_cons_inv (a := xj)).
    assert (<[i := xj]> x !! j = Some xj) as Hj'.
    { by rewrite list_lookup_insert_ne. }
    rewrite <- (insert_Permutation _ j xj xi Hj').
    symmetry. by apply insert_Permutation.
Qed.

Lemma swap_is_Some {A} (x : list A) i j :
  (i < length x)%nat → (j < length x)%nat → is_Some (swap x i j).
Proof.
  intros Hi Hj. unfold swap.
  destruct (lookup_lt_is_Some_2 x i Hi) as [a ->].
  destruct (lookup_lt_is_Some_2 x j Hj) as [b ->]. by eexists.
Qed.

Lemma shuffle_from_spec i x w :
  (i < length x)%nat ∨ i = 0%nat →
  ∃ x' w', shuffle_from i x w = (Return x', w') ∧ x' ≡ₚ x ∧ same_io w w'.
Proof.
  revert x w. induction i as [|i IH]; intros x w Hi.
  - exists x, w. split; [done|]. split; [done | apply same_io_refl].
  - destruct Hi as [Hi|?]; [|done].
    destruct (randbelow_spec (S (S i)) w) as (j & w1 & Hr & Hj & Hio1); [lia|].
    destruct (swap_is_Some x (S i) j) as [x1 Hx1]; [lia..|].
    pose proof (swap_Permutation _ _ _ _ Hx1) as Hp1.
    destruct (IH x1 w1) as (x2 & w2 & Hs & Hp2 & Hio2).
    { left. rewrite (Permutation_length Hp1). lia. }
    exists x2, w2. split; [|split].
    + cbn [shuffle_from]. unfold bind. rewrite Hr, Hx1. exact Hs.
    + by rewrite Hp2.
    + by eapply same_io_trans.
Qed.

Lemma shuffle_spec x w :
  ∃ x' w', shuffle x w = (Return x', w') ∧ x' ≡ₚ x ∧ same_io w w'.
Proof.
  apply shuffle_from_spec. destruct x; simpl; [by right | left; lia].
Qed.

(** ** The strong-password generator *)

Lemma length_string_of_list_ascii (l : list ascii) :
  String.length (string_of_list_ascii l) = length l.
Proof. induction l as [|c l IH]; simpl; [done | by rewrite IH]. Qed.

Lemma has_class_intro p (l l' : list ascii) c :
  l' ≡ₚ l → c ∈ l → p c = true → has_class p (string_of_list_ascii l') = true.
Proof.
  intros Hp Hc Hpc. unfold has_class.
  rewrite list_ascii_of_string_of_list_ascii.
  apply existsb_exists. exists c. split; [|done].
  apply list_elem_of_In. by rewrite Hp.
Qed.

Lemma ascii_lowercase_is_lower c : c ∈ ascii_lowercase → is_lower c = true.
Proof.
  assert (forallb is_lower ascii_lowercase = true) as H by reflexivity.
  rewrite forallb_forall in H. intros Hc. by apply H, list_elem_of_In.
Qed.

Lemma ascii_uppercase_is_upper c : c ∈ ascii_uppercase → is_upper c = true.
Proof.
  assert (forallb is_upper ascii_uppercase = true) as H by reflexivity.
  rewrite forallb_forall in H. intros Hc. by apply H, list_elem_of_In.
Qed.

Lemma digits_is_digit c : c ∈ digits → is_digit c = true.
Proof.
  assert (forallb is_digit digits = true) as H by reflexivity.
  rewrite forallb_forall in H. intros Hc. by apply H, list_elem_of_In.
Qed.

Lemma punctuation_is_punct c : c ∈ punctuation → is_punct c = true.
Proof.
  assert (forallb is_punct punctuation = true) as H by reflexivity.
  rewrite forallb_forall in H. intros Hc. by apply H, list_elem_of_In.
Qed.

(** The generator on a valid length: it returns, the password is a
    permutation of the four guaranteed characters followed by the
    filling, and only the random state has moved. *)
Lemma generate_strong_password_ok (L : Z) (w : world) :
  (4 ≤ L)%Z →
  ∃ c1 c2 c3 c4 rest x w',
    __generate_strong_password L w = (Return (string_of_list_ascii x), w') ∧
    c1 ∈ ascii_lowercase ∧ c2 ∈ ascii_uppercase ∧ c3 ∈ digits ∧ c4 ∈ punctuation ∧
    length rest = Z.to_nat (L - 4) ∧
    x ≡ₚ c1 :: c2 :: c3 :: c4 :: rest ∧
    same_io w w'.
Proof.
  intros HL.
  destruct (choice_spec ascii_lowercase w) as (c1 & w1 & E1 & H1 & Io1); [done|].
  destruct (choice_spec ascii_uppercase w1) as (c2 & w2 & E2 & H2 & Io2); [done|].
  destruct (choice_spec digits w2) as (c3 & w3 & E3 & H3 & Io3); [done|].
  destruct (choice_spec punctuation w3) as (c4 & w4 & E4 & H4 & Io4); [done|].
  destruct (choices_spec (ascii_letters ++ digits ++ punctuation)
              (Z.to_nat (L - 4)) w4) as (rest & w5 & E5 & Hlen & _ & Io5); [done|].
  destruct (shuffle_spec ([c1; c2; c3; c4] ++ rest) w5) as (x & w6 & E6 & Hp & Io6).
  exists c1, c2, c3, c4, rest, x, w6.
  split; [|repeat (split; [done|])].
  - unfold __generate_strong_password.
    destruct (Z.ltb_spec L 4) as [?|_]; [lia|].
    unfold bind. rewrite E1, E2, E3, E4, E5, E6. reflexivity.
  - repeat (eapply same_io_trans; [eassumption|]). apply same_io_refl.
Qed.

(** C6. For every target length [L >= 4] the strong-password generator
    returns a string of length exactly [L] that holds at least one
    lowercase letter, one uppercase letter, one digit and one punctuation
    character; for every [L < 4] it raises [ValueError]. *)
Theorem generate_strong_password_spec (L : Z) (w : world) :
  ((4 ≤ L)%Z →
   ∃ pw w', __generate_strong_password L w = (Return pw, w') ∧
            Z.of_nat (String.length pw) = L ∧
            has_class is_lower pw = true ∧ has_class is_upper pw = true ∧
            has_class is_digit pw = true ∧ has_class is_punct pw = true) ∧
  ((L < 4)%Z →
   ∃ msg, __generate_strong_password L w = (Raise (ValueError msg), w)).
Proof.
  split.
  - intros HL.
    destruct (generate_strong_password_ok L w HL)
      as (c1 & c2 & c3 & c4 & rest & x & w' & E & H1 & H2 & H3 & H4 & Hlen & Hp & _).
    exists (string_of_list_ascii x), w'. split; [done|]. split.
    { rewrite length_string_of_list_ascii, (Permutation_length Hp). simpl. lia. }
    split; [|split; [|split]].
    + eapply (has_class_intro _ _ _ c1 Hp); [apply list_elem_of_In; simpl; tauto | by apply ascii_lowercase_is_lower].
    + eapply (has_class_intro _ _ _ c2 Hp); [apply list_elem_of_In; simpl; tauto | by apply ascii_uppercase_is_upper].
    + eapply (has_class_intro _ _ _ c3 Hp); [apply list_elem_of_In; simpl; tauto | by apply digits_is_digit].
    + eapply (has_class_intro _ _ _ c4 Hp); [apply list_elem_of_In; simpl; tauto | by apply punctuation_is_punct].
  - intros HL. eexists. unfold __generate_strong_password.
    destruct (Z.ltb_spec L 4) as [_|?]; [reflexivity | lia].
Qed.

(** ** User provisioning *)

Section Provisioning.
Context {FlaggedAudit DaySeries AuditorRow CounsellorRow : Type}.
Variable self : ManagerService FlaggedAudit DaySeries AuditorRow CounsellorRow.

(** Whatever [create_new_auditor] returns as [password] is what the
    password context made of the generated password: the second
    assignment to [auditor_data["password"]] overwrites the first. *)
Lemma create_new_auditor_password auditor_data w r w' :
  create_new_auditor self auditor_data w = (Return r, w') →
  ∃ plain w1 hashed,
    __generate_strong_password 10 w = (Return plain, w1) ∧
    hash (pwd_context self) plain = Answers hashed ∧
    NewUserCreatedSchema.password r = hashed.
Proof.
  unfold create_new_auditor. svc_unfold.
  destruct (__generate_strong_password 10 w) as [[plain|e] w1] eqn:Eg.
  2:{ destruct e; discriminate. }
  rewrite lookup_insert_eq. svc_beta.
  destruct (hash (pwd_context self) plain) as [hashed|[]] eqn:Eh;
    svc_beta; [|discriminate..].
  destruct (create_auditor _ _) as [[|]|[]]; svc_beta; try discriminate.
  rewrite lookup_insert_eq. intros [= <- _].
  exists plain, w1, hashed. by simpl.
Qed.

(** C9. [add_new_user] with role ["counsellor"] and an empty
    [auditor_id] fails with status 500 and leaves the world as it was:
    no repository method is invoked, no counsellor row is created. *)
Theorem add_new_user_counsellor_needs_auditor_id
    (name email phone manager_id : string) (w : world) :
  add_new_user self "counsellor" name email phone "" manager_id w =
    (Raise (HTTPException HTTP_500_INTERNAL_SERVER_ERROR
              "Auditor ID needed for creating counsellor"), w).
Proof. reflexivity. Qed.

End Provisioning.

(** C1. At the request [add_new_user("auditor", "Asha", ...)] the
    generator produces [dK7FTM%07]], the password context is asked to hash
    exactly that, and the [password] of the returned schema is the hash,
    not the generated plaintext. *)
Theorem add_new_user_auditor_returns_hash :
  let request :=
    add_new_user (demo_service (Some 8%Z) (Some []))
      "auditor" "Asha" "asha@example.com" "5550100" "" "mgr-1" w0 in
  fst (__generate_strong_password 10 w0) = Return "dK7FTM%07]" ∧
  fst request =
    Return {| NewUserCreatedSchema.success := true;
              NewUserCreatedSchema.message := "Auditor created succesfully";
              NewUserCreatedSchema.password := "$2b$12$dK7FTM%07]" |} ∧
  calls (snd request) =
    [Call_hash "dK7FTM%07]";
     Call_create_auditor
       (list_to_map [("email", "asha@example.com"); ("name", "Asha");
                     ("phone", "5550100"); ("manager_id", "mgr-1");
                     ("password", "$2b$12$dK7FTM%07]")])].
Proof. vm_compute. auto. Qed.

(** ** Analytics *)

Section Analytics.
Context {FlaggedAudit DaySeries AuditorRow CounsellorRow : Type}.
Variable self : ManagerService FlaggedAudit DaySeries AuditorRow CounsellorRow.

(** The two roster methods read nothing of their argument but its [id]. *)
Lemma get_auditors_analytics_by_id (o o' : pyobj) (w : world) :
  attr_id o = attr_id o' →
  get_auditors_analytics self o w = get_auditors_analytics self o' w.
Proof.
  intros E. unfold get_auditors_analytics, getattr_id. by rewrite E.
Qed.

Lemma get_counsellor_analysis_by_id (o o' : pyobj) (w : world) :
  attr_id o = attr_id o' →
  get_counsellor_analysis self o w = get_counsellor_analysis self o' w.
Proof.
  intros E. unfold get_counsellor_analysis, getattr_id. by rewrite E.
Qed.

(** C2, as the code has it. For an argument that is not a [Manager]:
    [get_manager_analytics] fails with 403 Forbidden and invokes
    nothing; [get_auditors_analytics] and [get_counsellor_analysis]
    check no type: when the argument has no [id] they fail with status
    500 and invoke nothing, and when it has one they do exactly what
    they do for a [Manager] of that [id]. *)
Theorem analytics_type_check (o : pyobj) (w : world) :
  isinstance_Manager o = false →
  get_manager_analytics self o w =
    (Raise (HTTPException HTTP_403_FORBIDDEN
              "Current user is not authorized as manager"), w) ∧
  (attr_id o = None →
     get_auditors_analytics self o w =
       (Raise (HTTPException HTTP_500_INTERNAL_SERVER_ERROR
                 "Internal server error while getting audit analysis."), w) ∧
     get_counsellor_analysis self o w =
       (Raise (HTTPException HTTP_500_INTERNAL_SERVER_ERROR
                 "Internal server error while getting counsellor analysis."), w)) ∧
  (∀ m : Manager.t, attr_id o = Some (Manager.id m) →
     get_auditors_analytics self o w =
       get_auditors_analytics self (ManagerObj m) w ∧
     get_counsellor_analysis self o w =
       get_counsellor_analysis self (ManagerObj m) w).
Proof.
  intros Hty. split; [|split].
  - unfold get_manager_analytics. rewrite Hty. reflexivity.
  - intros Hid. unfold get_auditors_analytics, get_counsellor_analysis.
    svc_unfold. rewrite Hid. by split.
  - intros m Hid. split.
    + by apply get_auditors_analytics_by_id.
    + by apply get_counsellor_analysis_by_id.
Qed.

(** C3. Whenever [get_counsellor_analysis] succeeds, [total_calls_made]
    is the value under the key [total_counsellors] of the dictionary the
    repository answered, hence equal to [total_counsellors]. *)
Theorem get_counsellor_analysis_total_calls_made
    (o : pyobj) (w w' : world) (r : CounsellorAnalysisResponse.t CounsellorRow) :
  get_counsellor_analysis self o w = (Return r, w') →
  ∃ manager_id counsellor_data,
    attr_id o = Some manager_id ∧
    get_counsellor_data (repo self) manager_id = Answers (Some counsellor_data) ∧
    counsellor_data !! "total_counsellors" =
      Some (CounsellorAnalysisResponse.total_calls_made r) ∧
    CounsellorAnalysisResponse.total_calls_made r =
      CounsellorAnalysisResponse.total_counsellors r.
Proof.
  unfold get_counsellor_analysis. svc_unfold.
  destruct (attr_id o) as [manager_id|]; svc_beta; [|discriminate].
  destruct (get_counsellor_data (repo self) manager_id)
    as [counsellor_data|[]] eqn:Ed; svc_beta; [|discriminate..].
  destruct (get_counsellors (repo self) manager_id)
    as [[[|c counsellors]|]|[]]; svc_beta; try discriminate.
  unfold truthy_dict.
  destruct counsellor_data as [d|]; svc_beta; [|discriminate].
  destruct (decide (d = ∅)) as [Hemp|Hne]; svc_beta; [discriminate|].
  destruct (d !! "total_counsellors") as [n|] eqn:En; svc_beta; [|discriminate].
  intros [= <- _]. exists manager_id, d. by simpl.
Qed.

(** C4. [get_manager_analytics] for a [Manager] is all or nothing. Let
    the five fetches return what they return: when one of them returns
    [None] the call fails with status 500 and returns no payload; when
    all five return a value the call succeeds and the response carries
    exactly the five values. *)
Theorem get_manager_analytics_all_or_nothing (m : Manager.t) (w : world)
    (leads audits flagged_calls : option Z)
    (latest_flagged_audit : option (list FlaggedAudit))
    (last_7_days_data : option DaySeries) :
  let manager_id := Manager.id m in
  let fetched :=
    logged w [Call_get_all_leads manager_id;
              Call_get_all_audit manager_id;
              Call_get_all_flagged_call manager_id;
              Call_get_all_latest_flagged_audit manager_id;
              Call_get_last_7_days_audited_calls manager_id] in
  get_all_leads (repo self) manager_id = Answers leads →
  get_all_audit (repo self) manager_id = Answers audits →
  get_all_flagged_call (repo self) manager_id = Answers flagged_calls →
  get_all_latest_flagged_audit (repo self) manager_id = Answers latest_flagged_audit →
  get_last_7_days_audited_calls (repo self) manager_id = Answers last_7_days_data →
  (leads = None ∨ audits = None ∨ flagged_calls = None ∨
   latest_flagged_audit = None ∨ last_7_days_data = None →
   get_manager_analytics self (ManagerObj m) w =
     (Raise (HTTPException HTTP_500_INTERNAL_SERVER_ERROR
               "Internal server error while fetching data from database"),
      fetched)) ∧
  (∀ l a f la d,
     leads = Some l → audits = Some a → flagged_calls = Some f →
     latest_flagged_audit = Some la → last_7_days_data = Some d →
     get_manager_analytics self (ManagerObj m) w =
       (Return
          {| ManagerAnalyticsResponse.success := true;
             ManagerAnalyticsResponse.message :=
               "Succesfully analyzed audits for manager";
             ManagerAnalyticsResponse.total_assigned_leads := Some l;
             ManagerAnalyticsResponse.total_audited_calls := Some a;
             ManagerAnalyticsResponse.flagged_calls := Some f;
             ManagerAnalyticsResponse.latest_flagged_audit := Some la;
             ManagerAnalyticsResponse.last_7_days_data := Some d |},
        fetched)).
Proof.
  intros manager_id fetched E1 E2 E3 E4 E5. subst manager_id fetched.
  unfold get_manager_analytics. svc_unfold. cbn [isinstance_Manager attr_id negb].
  svc_beta. rewrite E1; svc_beta. rewrite E2; svc_beta. rewrite E3; svc_beta.
  rewrite E4; svc_beta. rewrite E5; svc_beta.
  unfold logged. cbn [calls rand cookies]. rewrite <- !app_assoc. cbn [app].
  split.
  - intros Hnone.
    destruct leads, audits, flagged_calls, latest_flagged_audit, last_7_days_data;
      cbn [any existsb is_None orb]; try reflexivity.
    exfalso. destruct Hnone as [?|[?|[?|[?|?]]]]; discriminate.
  - intros l a f la d -> -> -> -> ->. reflexivity.
Qed.

(** C5. [get_flagged_audits] tells empty from failed: an empty list from
    the repository is a success carrying [[]], [None] is a failure with
    status 500, and the call succeeds exactly when the repository
    answered a list. *)
Theorem get_flagged_audits_empty_vs_failed
    (o : pyobj) (manager_id : string) (w : world) :
  attr_id o = Some manager_id →
  (get_all_latest_flagged_audit (repo self) manager_id = Answers (Some []) →
   get_flagged_audits self o w =
     (Return {| FlaggedAuditsResponse.success := true;
                FlaggedAuditsResponse.message :=
                  "Succesfully retrieved the flagged audits";
                FlaggedAuditsResponse.flagged_audits := [] |},
      logged w [Call_get_all_latest_flagged_audit manager_id])) ∧
  (get_all_latest_flagged_audit (repo self) manager_id = Answers None →
   get_flagged_audits self o w =
     (Raise (HTTPException HTTP_500_INTERNAL_SERVER_ERROR
               "Internal server error occurred while fetching flagged audits."),
      logged w [Call_get_all_latest_flagged_audit manager_id])) ∧
  (is_raise (fst (get_flagged_audits self o w)) = false ↔
   ∃ flagged_audits,
     get_all_latest_flagged_audit (repo self) manager_id =
       Answers (Some flagged_audits)).
Proof.
  intros Hid. unfold get_flagged_audits. svc_unfold. rewrite Hid. svc_beta.
  split; [|split].
  - intros ->. reflexivity.
  - intros ->. reflexivity.
  - destruct (get_all_latest_flagged_audit (repo self) manager_id)
      as [[[|a l]|]|[]]; simpl; split; intros H;
      try discriminate; eauto; by destruct H.
Qed.

End Analytics.

(** ** Login *)

Section Login.
Context {FlaggedAudit DaySeries AuditorRow CounsellorRow : Type}.
Variable self : ManagerService FlaggedAudit DaySeries AuditorRow CounsellorRow.

Lemma truthy_str_Some (t : string) : t ≠ "" → truthy_str (Some t) = Some t.
Proof.
  intros Hne. unfold truthy_str.
  destruct (String.eqb_spec t ""); [done | reflexivity].
Qed.

Lemma truthy_str_nonempty (t : option string) (s : string) :
  truthy_str t = Some s → t = Some s ∧ s ≠ "".
Proof.
  destruct t as [t|]; [|done]. unfold truthy_str.
  destruct (String.eqb_spec t ""); [done|]. by intros [= <-].
Qed.

(** Case analysis on every reply [login_manager] can get, exceptions
    included. *)
Ltac login_cases email password :=
  unfold login_manager; svc_unfold; svc_beta;
  destruct (get_manager (repo self) email) as [[m|]|[]] eqn:Em; svc_beta;
  try (destruct (verify (pwd_context self) password (Manager.password m))
         as [[|]|[]] eqn:Ev; svc_beta;
       try (destruct (create_jwt_token (jwt_util self) _) as [t|[]]; svc_beta;
            try (destruct (truthy_str t) as [t'|] eqn:Et; svc_beta;
                 try (destruct (create_refresh_token (jwt_util self) _)
                        as [r|[]]; svc_beta;
                      try (destruct (truthy_str r) as [r'|] eqn:Er; svc_beta))))).

(** C7. A login for an email the repository does not know fails with
    404 Not Found, before the password context is ever asked; a login
    whose password does not verify against the stored hash fails with
    401 Unauthorized; the first never comes out as 401 nor the second as
    404; the lookup by email is always the first call made, and the
    password context is asked only once the repository has answered a
    manager, about that manager's stored hash. *)
Theorem login_manager_not_found_or_unauthorized
    (email password : string) (w : world) :
  let result := login_manager self email password w in
  (get_manager (repo self) email = Answers None →
   result = (Raise (HTTPException HTTP_404_NOT_FOUND
                      "No manager found with given email"),
             logged w [Call_get_manager email])) ∧
  (∀ m, get_manager (repo self) email = Answers (Some m) →
        verify (pwd_context self) password (Manager.password m) = Answers false →
        result = (Raise (HTTPException HTTP_401_UNAUTHORIZED "Password not matched"),
                  logged w [Call_get_manager email;
                            Call_verify password (Manager.password m)])) ∧
  (get_manager (repo self) email = Answers None →
   ∀ detail, fst result ≠ Raise (HTTPException HTTP_401_UNAUTHORIZED detail)) ∧
  (∀ m, get_manager (repo self) email = Answers (Some m) →
        verify (pwd_context self) password (Manager.password m) = Answers false →
        ∀ detail, fst result ≠ Raise (HTTPException HTTP_404_NOT_FOUND detail)) ∧
  (∃ rest,
     calls (snd result) = (calls w ++ Call_get_manager email :: rest)%list ∧
     ∀ secret stored,
       Call_verify secret stored ∈ rest →
       ∃ m, get_manager (repo self) email = Answers (Some m) ∧
            secret = password ∧ stored = Manager.password m).
Proof.
  intros result. subst result. split; [|split; [|split; [|split]]].
  - unfold login_manager. svc_unfold. intros ->. reflexivity.
  - unfold login_manager. svc_unfold. intros m -> . svc_beta. intros ->.
    svc_beta. unfold logged. cbn [calls rand cookies]. by rewrite <- app_assoc.
  - unfold login_manager. svc_unfold. intros ->. by cbn [fst].
  - unfold login_manager. svc_unfold. intros m -> . svc_beta. intros ->.
    by cbn [fst].
  - login_cases email password; cbn [snd calls];
      rewrite <- ?app_assoc; cbn [app];
      (eexists; split; [reflexivity|]);
      intros secret stored Hin; apply list_elem_of_In in Hin; cbn [In] in Hin;
      repeat (destruct Hin as [Hin|Hin]); try discriminate; try done;
      injection Hin as <- <-; by exists m.
Qed.

(** C8. When the email matches a stored manager, the password verifies
    and both tokens are issued (truthy), the login succeeds, appends
    exactly two cookies to the response: [token], valid one day, and
    [refresh_token], valid seven days, both http-only and same-site
    [lax], holding the non-empty tokens; and returns the user view made
    of id, name, email and the role [manager]. *)
Theorem login_manager_sets_two_cookies
    (email password : string) (w : world) (m : Manager.t) (token refresh_token : string) :
  get_manager (repo self) email = Answers (Some m) →
  verify (pwd_context self) password (Manager.password m) = Answers true →
  create_jwt_token (jwt_util self) (session_claims m) = Answers (Some token) →
  token ≠ "" →
  create_refresh_token (jwt_util self) (refresh_claims m) = Answers (Some refresh_token) →
  refresh_token ≠ "" →
  ∃ w',
    login_manager self email password w =
      (Return {| LoginSchema.success := true;
                 LoginSchema.message := "Manager logged in succesfully.";
                 LoginSchema.user :=
                   {| User.id := Manager.id m;
                      User.name := Manager.name m;
                      User.email := Manager.email m;
                      User.role := "manager" |} |}, w') ∧
    cookies w' =
      (cookies w ++
       [ {| key := "token"; value := token; httponly := true;
            secure := false; samesite := "lax"; max_age := 86400 |};
         {| key := "refresh_token"; value := refresh_token; httponly := true;
            secure := true; samesite := "lax"; max_age := 604800 |} ])%list ∧
    calls w' =
      (calls w ++
       [ Call_get_manager email; Call_verify password (Manager.password m);
         Call_create_jwt_token (session_claims m);
         Call_create_refresh_token (refresh_claims m) ])%list.
Proof.
  intros Em Ev Et Ht Er Hr. eexists.
  unfold login_manager. svc_unfold. svc_beta.
  rewrite Em; svc_beta. rewrite Ev; svc_beta.
  fold (session_claims m). rewrite Et; svc_beta.
  rewrite (truthy_str_Some _ Ht); svc_beta.
  fold (refresh_claims m). rewrite Er; svc_beta.
  rewrite (truthy_str_Some _ Hr); svc_beta.
  split; [reflexivity|]. cbn [cookies calls]. split.
  - by rewrite <- app_assoc.
  - by rewrite <- !app_assoc.
Qed.

(** Conversely, every login that succeeds has appended exactly these two
    cookies, with non-empty values. *)
Lemma login_manager_success_cookies
    (email password : string) (w w' : world) (resp : LoginSchema.t) :
  login_manager self email password w = (Return resp, w') →
  ∃ c1 c2,
    cookies w' = (cookies w ++ [c1; c2])%list ∧
    key c1 = "token" ∧ key c2 = "refresh_token" ∧
    value c1 ≠ "" ∧ value c2 ≠ "" ∧
    httponly c1 = true ∧ httponly c2 = true ∧
    samesite c1 = "lax" ∧ samesite c2 = "lax" ∧
    max_age c1 = 86400%Z ∧ max_age c2 = 604800%Z.
Proof.
  login_cases email password; try discriminate.
  intros [= _ <-]. cbn [cookies].
  apply truthy_str_nonempty in Et as [_ Ht], Er as [_ Hr].
  eexists _, _. rewrite <- app_assoc. split; [reflexivity|].
  by cbn [key value httponly samesite max_age].
Qed.

(** C10. A login that fails, for whatever reason, leaves the cookies of
    the response as they were. *)
Theorem login_manager_failure_sets_no_cookie
    (email password : string) (w : world) :
  is_raise (fst (login_manager self email password w)) = true →
  cookies (snd (login_manager self email password w)) = cookies w.
Proof.
  login_cases email password; cbn [fst snd is_raise cookies];
    first [ discriminate | reflexivity ].
Qed.

End Login.

(** ** The theorems at work on the concrete deployment *)

(** C2 fails as stated: an [Auditor] passed to [get_auditors_analytics]
    is served, after two repository calls made with the auditor's own id;
    and [None] passed to [get_counsellor_analysis] fails with status 500,
    which is neither Forbidden nor Unauthorized. *)
Lemma get_auditors_analytics_serves_non_manager :
  isinstance_Manager (AuditorObj demo_auditor) = false ∧
  get_auditors_analytics (demo_service (Some 8%Z) (Some [])) (AuditorObj demo_auditor) w0 =
    (Return {| AuditorAnalyticsResponse.success := true;
               AuditorAnalyticsResponse.message :=
                 "Succesfully got the auditors data under manager";
               AuditorAnalyticsResponse.number_of_auditors := 1;
               AuditorAnalyticsResponse.total_audited_calls := 8;
               AuditorAnalyticsResponse.auditors := [demo_auditor] |},
     logged w0 [Call_get_auditor_and_audited_call_counts "aud-1";
                Call_get_auditors "aud-1"]) ∧
  forallb is_repo_call [Call_get_auditor_and_audited_call_counts "aud-1";
                        Call_get_auditors "aud-1"] = true ∧
  isinstance_Manager NoneObj = false ∧
  get_counsellor_analysis (demo_service (Some 8%Z) (Some [])) NoneObj w0 =
    (Raise (HTTPException HTTP_500_INTERNAL_SERVER_ERROR
              "Internal server error while getting counsellor analysis."), w0).
Proof. repeat split. Qed.

Lemma analytics_type_check_witness :
  isinstance_Manager (CounsellorObj demo_counsellor) = false ∧
  get_manager_analytics (demo_service (Some 8%Z) (Some []))
    (CounsellorObj demo_counsellor) w0 =
    (Raise (HTTPException HTTP_403_FORBIDDEN
              "Current user is not authorized as manager"), w0).
Proof.
  split; [reflexivity|].
  exact (proj1 (analytics_type_check (demo_service (Some 8%Z) (Some []))
                  (CounsellorObj demo_counsellor) w0 eq_refl)).
Defined.

Lemma get_counsellor_analysis_total_calls_made_witness :
  ∃ manager_id counsellor_data,
    attr_id (ManagerObj demo_manager) = Some manager_id ∧
    get_counsellor_data (demo_repo (Some 8%Z) (Some [])) manager_id =
      Answers (Some counsellor_data) ∧
    counsellor_data !! "total_counsellors" = Some 1%Z ∧
    counsellor_data !! "total_calls_made" = Some 40%Z.
Proof.
  destruct (get_counsellor_analysis_total_calls_made
              (demo_service (Some 8%Z) (Some [])) (ManagerObj demo_manager) w0
              (logged w0 [Call_get_counsellor_data "mgr-1"; Call_get_counsellors "mgr-1"])
              {| CounsellorAnalysisResponse.success := true;
                 CounsellorAnalysisResponse.message :=
                   "Succesfully retrieved counsellors data";
                 CounsellorAnalysisResponse.total_counsellors := 1;
                 CounsellorAnalysisResponse.total_calls_made := 1;
                 CounsellorAnalysisResponse.counsellors := [demo_counsellor] |}
              eq_refl)
    as (manager_id & counsellor_data & Hid & Hdata & Hkey & _).
  exists manager_id, counsellor_data.
  split; [exact Hid|]. split; [exact Hdata|]. split; [exact Hkey|].
  injection Hid as <-. injection Hdata as <-. reflexivity.
Defined.

Lemma get_manager_analytics_all_or_nothing_witness :
  get_manager_analytics (demo_service None (Some [])) (ManagerObj demo_manager) w0 =
    (Raise (HTTPException HTTP_500_INTERNAL_SERVER_ERROR
              "Internal server error while fetching data from database"),
     logged w0 [Call_get_all_leads "mgr-1"; Call_get_all_audit "mgr-1";
                Call_get_all_flagged_call "mgr-1";
                Call_get_all_latest_flagged_audit "mgr-1";
                Call_get_last_7_days_audited_calls "mgr-1"]) ∧
  fst (get_manager_analytics (demo_service (Some 8%Z) (Some ["audit-7"]))
         (ManagerObj demo_manager) w0) =
    Return {| ManagerAnalyticsResponse.success := true;
              ManagerAnalyticsResponse.message :=
                "Succesfully analyzed audits for manager";
              ManagerAnalyticsResponse.total_assigned_leads := Some 12%Z;
              ManagerAnalyticsResponse.total_audited_calls := Some 8%Z;
              ManagerAnalyticsResponse.flagged_calls := Some 2%Z;
              ManagerAnalyticsResponse.latest_flagged_audit := Some ["audit-7"];
              ManagerAnalyticsResponse.last_7_days_data :=
                Some [1; 0; 2; 3; 0; 1; 1]%Z |}.
Proof.
  split.
  - exact (proj1 (get_manager_analytics_all_or_nothing
                    (demo_service None (Some [])) demo_manager w0
                    (Some 12%Z) None (Some 2%Z) (Some []) (Some [1; 0; 2; 3; 0; 1; 1]%Z)
                    eq_refl eq_refl eq_refl eq_refl eq_refl)
             (or_intror (or_introl eq_refl))).
  - rewrite (proj2 (get_manager_analytics_all_or_nothing
                      (demo_service (Some 8%Z) (Some ["audit-7"])) demo_manager w0
                      (Some 12%Z) (Some 8%Z) (Some 2%Z) (Some ["audit-7"])
                      (Some [1; 0; 2; 3; 0; 1; 1]%Z)
                      eq_refl eq_refl eq_refl eq_refl eq_refl)
               12%Z 8%Z 2%Z ["audit-7"] [1; 0; 2; 3; 0; 1; 1]%Z
               eq_refl eq_refl eq_refl eq_refl eq_refl).
    reflexivity.
Defined.

Lemma get_flagged_audits_empty_vs_failed_witness :
  is_raise (fst (get_flagged_audits (demo_service (Some 8%Z) (Some []))
                   (ManagerObj demo_manager) w0)) = false ∧
  is_raise (fst (get_flagged_audits (demo_service (Some 8%Z) None)
                   (ManagerObj demo_manager) w0)) = true.
Proof.
  split.
  - rewrite (proj1 (get_flagged_audits_empty_vs_failed
                      (demo_service (Some 8%Z) (Some []))
                      (ManagerObj demo_manager) "mgr-1" w0 eq_refl) eq_refl).
    reflexivity.
  - rewrite (proj1 (proj2 (get_flagged_audits_empty_vs_failed
                             (demo_service (Some 8%Z) None)
                             (ManagerObj demo_manager) "mgr-1" w0 eq_refl)) eq_refl).
    reflexivity.
Defined.

Lemma generate_strong_password_spec_witness :
  (∃ pw w', __generate_strong_password 10 w0 = (Return pw, w') ∧
            Z.of_nat (String.length pw) = 10%Z ∧
            has_class is_lower pw = true ∧ has_class is_upper pw = true ∧
            has_class is_digit pw = true ∧ has_class is_punct pw = true) ∧
  (∃ msg, __generate_strong_password 3 w0 = (Raise (ValueError msg), w0)).
Proof.
  split.
  - apply (proj1 (generate_strong_password_spec 10 w0)). lia.
  - apply (proj2 (generate_strong_password_spec 3 w0)). lia.
Defined.

Lemma login_manager_not_found_or_unauthorized_witness :
  fst (login_manager (demo_service (Some 8%Z) (Some [])) "nobody@example.com" "s3cret" w0) =
    Raise (HTTPException HTTP_404_NOT_FOUND "No manager found with given email") ∧
  fst (login_manager (demo_service (Some 8%Z) (Some [])) "meera@example.com" "guess" w0) =
    Raise (HTTPException HTTP_401_UNAUTHORIZED "Password not matched").
Proof.
  split.
  - rewrite (proj1 (login_manager_not_found_or_unauthorized
                      (demo_service (Some 8%Z) (Some []))
                      "nobody@example.com" "s3cret" w0) eq_refl).
    reflexivity.
  - rewrite (proj1 (proj2 (login_manager_not_found_or_unauthorized
                             (demo_service (Some 8%Z) (Some []))
                             "meera@example.com" "guess" w0))
               demo_manager eq_refl eq_refl).
    reflexivity.
Defined.

Lemma login_manager_sets_two_cookies_witness :
  ∃ w',
    login_manager (demo_service (Some 8%Z) (Some [])) "meera@example.com" "s3cret" w0 =
      (Return {| LoginSchema.success := true;
                 LoginSchema.message := "Manager logged in succesfully.";
                 LoginSchema.user :=
                   {| User.id := "mgr-1"; User.name := "Meera";
                      User.email := "meera@example.com"; User.role := "manager" |} |},
       w') ∧
    cookies w' =
      [ {| key := "token"; value := "jwt.mgr-1"; httponly := true;
           secure := false; samesite := "lax"; max_age := 86400 |};
        {| key := "refresh_token"; value := "refresh.mgr-1"; httponly := true;
           secure := true; samesite := "lax"; max_age := 604800 |} ].
Proof.
  destruct (login_manager_sets_two_cookies (demo_service (Some 8%Z) (Some []))
              "meera@example.com" "s3cret" w0 demo_manager "jwt.mgr-1" "refresh.mgr-1"
              eq_refl eq_refl eq_refl ltac:(discriminate) eq_refl ltac:(discriminate))
    as (w' & Hres & Hcookies & _).
  exists w'. split; [exact Hres | exact Hcookies].
Defined.

Lemma login_manager_failure_sets_no_cookie_witness :
  is_raise (fst (login_manager (demo_service (Some 8%Z) (Some []))
                   "meera@example.com" "guess" w0)) = true ∧
  cookies (snd (login_manager (demo_service (Some 8%Z) (Some []))
                  "meera@example.com" "guess" w0)) = [].
Proof.
  split; [reflexivity|].
  exact (login_manager_failure_sets_no_cookie (demo_service (Some 8%Z) (Some []))
           "meera@example.com" "guess" w0 eq_refl).
Defined.


(** * Further properties *)

(** ** The handler pair *)

(** A method that already ends with the handler pair passes unchanged
    through the handler pair of its caller. *)
Lemma except_http_nested {A} (outer inner : string) (body : Svc A) (w : world) :
  except_http outer (except_http inner body) w = except_http inner body w.
Proof.
  unfold except_http. by destruct (body w) as [[a|[]] w'].
Qed.

(** ** Accounts, flags and managers *)

Section AccountsProperties.
Variable accounts : AccountRepository.t.

(** X1. An empty id never reaches the repository: each of the four
    activation methods fails with status 500 and leaves the world as it
    was, whatever the repository would have done. *)
Theorem activation_empty_id_stops_before_repository (w : world) :
  deactivate_auditor accounts "" w =
    (Raise (HTTPException HTTP_500_INTERNAL_SERVER_ERROR "Auditor id not found"), w) ∧
  activate_auditor accounts "" w =
    (Raise (HTTPException HTTP_500_INTERNAL_SERVER_ERROR "Auditor id not found"), w) ∧
  deactivate_counsellor accounts "" w =
    (Raise (HTTPException HTTP_500_INTERNAL_SERVER_ERROR "Counsellor id not found"), w) ∧
  activate_counsellor accounts "" w =
    (Raise (HTTPException HTTP_500_INTERNAL_SERVER_ERROR "Counsellor id not found"), w).
Proof. repeat split. Qed.

Lemma eqb_empty_false (id : string) : id ≠ "" → String.eqb id "" = false.
Proof. intros Hne. by destruct (String.eqb_spec id ""). Qed.

(** X2. With a non-empty id, an activation method that the repository
    answers with [True] succeeds in the world the repository left, and
    its message ends with the id it was given. *)
Theorem activation_accepted_names_id (id : string) (w w1 : world) :
  id ≠ "" →
  (AccountRepository.deactivate_auditor accounts id w = (Return true, w1) →
   deactivate_auditor accounts id w =
     (Return {| BaseResponse.success := true;
                BaseResponse.message :=
                  "Succesfully deactivated auditor with id: " ++ id |}, w1)) ∧
  (AccountRepository.activate_auditor accounts id w = (Return true, w1) →
   activate_auditor accounts id w =
     (Return {| BaseResponse.success := true;
                BaseResponse.message :=
                  "Succesfully activated auditor with id: " ++ id |}, w1)) ∧
  (AccountRepository.deactivate_counsellor accounts id w = (Return true, w1) →
   deactivate_counsellor accounts id w =
     (Return {| BaseResponse.success := true;
                BaseResponse.message :=
                  "Succesfully deactivate counsellor with id: " ++ id |}, w1)) ∧
  (AccountRepository.activate_counsellor accounts id w = (Return true, w1) →
   activate_counsellor accounts id w =
     (Return {| BaseResponse.success := true;
                BaseResponse.message :=
                  "Succesfully activated counsellor with id: " ++ id |}, w1)).
Proof.
  intros Hne.
  unfold deactivate_auditor, activate_auditor, deactivate_counsellor,
    activate_counsellor.
  svc_unfold. rewrite (eqb_empty_false id Hne).
  repeat split; intros ->; reflexivity.
Qed.

(** X3. With a non-empty id, an activation method that the repository
    answers with [False] (no row changed) fails with status 500. *)
Theorem activation_refused_is_internal_error (id : string) (w w1 : world) :
  id ≠ "" →
  (AccountRepository.deactivate_auditor accounts id w = (Return false, w1) →
   deactivate_auditor accounts id w =
     (Raise (HTTPException HTTP_500_INTERNAL_SERVER_ERROR
               "Internal server error occurred while deactivating auditor"), w1)) ∧
  (AccountRepository.activate_auditor accounts id w = (Return false, w1) →
   activate_auditor accounts id w =
     (Raise (HTTPException HTTP_500_INTERNAL_SERVER_ERROR
               "Internal server error occurred while activating auditor"), w1)) ∧
  (AccountRepository.deactivate_counsellor accounts id w = (Return false, w1) →
   deactivate_counsellor accounts id w =
     (Raise (HTTPException HTTP_500_INTERNAL_SERVER_ERROR
               "Internal server error occurred while deactivate counsellor"), w1)) ∧
  (AccountRepository.activate_counsellor accounts id w = (Return false, w1) →
   activate_counsellor accounts id w =
     (Raise (HTTPException HTTP_500_INTERNAL_SERVER_ERROR
               "Internal server error occurred while activate counsellor"), w1)).
Proof.
  intros Hne.
  unfold deactivate_auditor, activate_auditor, deactivate_counsellor,
    activate_counsellor.
  svc_unfold. rewrite (eqb_empty_false id Hne).
  repeat split; intros ->; reflexivity.
Qed.

(** X4. The deactivation switch adds nothing of its own: for the role
    [auditor] it is [deactivate_auditor] on the auditor id, for the role
    [counsellor] it is [deactivate_counsellor] on the counsellor id (the
    other id is ignored), and for every other role it fails with 400 Bad
    Request without touching the world. *)
Theorem deactivate_auditor_or_counsellor_dispatch
    (counsellor_id auditor_id role : string) (w : world) :
  deactivate_auditor_or_counsellor accounts counsellor_id auditor_id role w =
    if String.eqb role "auditor" then deactivate_auditor accounts auditor_id w
    else if String.eqb role "counsellor" then
      deactivate_counsellor accounts counsellor_id w
    else (Raise (HTTPException HTTP_400_BAD_REQUEST "No valid role to deactivate"), w).
Proof.
  unfold deactivate_auditor_or_counsellor.
  destruct (String.eqb role "auditor").
  { unfold deactivate_auditor. apply except_http_nested. }
  destruct (String.eqb role "counsellor").
  { unfold deactivate_counsellor. apply except_http_nested. }
  reflexivity.
Qed.

(** X5. The activation switch likewise: [activate_auditor] for the role
    [auditor], [activate_counsellor] for the role [counsellor], and 400
    Bad Request with the world untouched for every other role. *)
Theorem activate_auditor_or_counsellor_dispatch
    (counsellor_id auditor_id role : string) (w : world) :
  activate_auditor_or_counsellor accounts counsellor_id auditor_id role w =
    if String.eqb role "auditor" then activate_auditor accounts auditor_id w
    else if String.eqb role "counsellor" then
      activate_counsellor accounts counsellor_id w
    else (Raise (HTTPException HTTP_400_BAD_REQUEST "No valid role to activate"), w).
Proof.
  unfold activate_auditor_or_counsellor.
  destruct (String.eqb role "auditor").
  { unfold activate_auditor. apply except_http_nested. }
  destruct (String.eqb role "counsellor").
  { unfold activate_counsellor. apply except_http_nested. }
  reflexivity.
Qed.

(** X6. [unflag_flagged_audit] guards its caller before anything else: an
    argument that is not a [Manager] gets 401 Unauthorized and the world
    stays as it was, whatever the repository would have done; for a
    [Manager] the repository's [True] gives the success message naming
    the audit, and its [False] gives status 500. *)
Theorem unflag_flagged_audit_outcomes (o : pyobj) (audit_id : string) (w w1 : world) :
  (isinstance_Manager o = false →
   unflag_flagged_audit accounts o audit_id w =
     (Raise (HTTPException HTTP_401_UNAUTHORIZED
               "Unauthorised access, user is not manager."), w)) ∧
  (isinstance_Manager o = true →
   AccountRepository.unflag_audit accounts audit_id w = (Return true, w1) →
   unflag_flagged_audit accounts o audit_id w =
     (Return {| BaseResponse.success := true;
                BaseResponse.message :=
                  "Succesfully unflagged given audit with id: " ++ audit_id |}, w1)) ∧
  (isinstance_Manager o = true →
   AccountRepository.unflag_audit accounts audit_id w = (Return false, w1) →
   unflag_flagged_audit accounts o audit_id w =
     (Raise (HTTPException HTTP_500_INTERNAL_SERVER_ERROR
               "Internal server error occurred while unflagging audit"), w1)).
Proof.
  unfold unflag_flagged_audit. svc_unfold.
  repeat split; intros Hm; rewrite Hm; svc_beta;
    try (intros Hr; rewrite Hr); reflexivity.
Qed.

(** X7. [add_new_manager] reports what the repository did: [True] gives
    the success message, [False] gives status 500 with the detail
    [Failed to create new manager], an [HTTPException] of the repository
    comes out as it is, and any other exception becomes status 500 with
    a detail that says nothing of the cause. *)
Theorem add_new_manager_outcomes (manager_data : gmap string string) (w w1 : world) :
  (AccountRepository.create_new_manager accounts manager_data w = (Return true, w1) →
   add_new_manager accounts manager_data w =
     (Return {| BaseResponse.success := true;
                BaseResponse.message := "Manager created successfully." |}, w1)) ∧
  (AccountRepository.create_new_manager accounts manager_data w = (Return false, w1) →
   add_new_manager accounts manager_data w =
     (Raise (HTTPException HTTP_500_INTERNAL_SERVER_ERROR
               "Failed to create new manager"), w1)) ∧
  (∀ status detail,
     AccountRepository.create_new_manager accounts manager_data w =
       (Raise (HTTPException status detail), w1) →
     add_new_manager accounts manager_data w =
       (Raise (HTTPException status detail), w1)) ∧
  (∀ e,
     AccountRepository.create_new_manager accounts manager_data w = (Raise e, w1) →
     raw_exception (Raise e : outcome bool) = true →
     add_new_manager accounts manager_data w =
       (Raise (HTTPException HTTP_500_INTERNAL_SERVER_ERROR
                 "Internal Server error occurred while creating new manager"), w1)).
Proof.
  unfold add_new_manager. svc_unfold.
  split; [|split; [|split]].
  - intros ->. reflexivity.
  - intros ->. reflexivity.
  - intros status detail ->. reflexivity.
  - intros e -> He. by destruct e.
Qed.

End AccountsProperties.

(** ** The generator, once more *)

Lemma all_chars_printable c : c ∈ all_chars → in_range 33 126 c = true.
Proof.
  assert (forallb (in_range 33 126) all_chars = true) as H by reflexivity.
  rewrite forallb_forall in H. intros Hc. by apply H, list_elem_of_In.
Qed.

Lemma class_in_all_chars c :
  c ∈ ascii_lowercase ∨ c ∈ ascii_uppercase ∨ c ∈ digits ∨ c ∈ punctuation →
  c ∈ all_chars.
Proof.
  unfold all_chars, ascii_letters. rewrite !elem_of_app. tauto.
Qed.

(** X8. Every character of a generated password is drawn from letters,
    digits and punctuation, hence a printable ASCII character that is not
    a blank (codes 33 to 126); and generating moves nothing but the
    random state. *)
Theorem generate_strong_password_alphabet (L : Z) (w : world) :
  (4 ≤ L)%Z →
  ∃ pw w',
    __generate_strong_password L w = (Return pw, w') ∧
    Forall (λ c, c ∈ all_chars) (list_ascii_of_string pw) ∧
    forallb (in_range 33 126) (list_ascii_of_string pw) = true ∧
    calls w' = calls w ∧ cookies w' = cookies w.
Proof.
  intros HL.
  destruct (choice_spec ascii_lowercase w) as (c1 & w1 & E1 & H1 & Io1); [done|].
  destruct (choice_spec ascii_uppercase w1) as (c2 & w2 & E2 & H2 & Io2); [done|].
  destruct (choice_spec digits w2) as (c3 & w3 & E3 & H3 & Io3); [done|].
  destruct (choice_spec punctuation w3) as (c4 & w4 & E4 & H4 & Io4); [done|].
  destruct (choices_spec all_chars (Z.to_nat (L - 4)) w4)
    as (rest & w5 & E5 & _ & Hrest & Io5); [done|].
  destruct (shuffle_spec ([c1; c2; c3; c4] ++ rest) w5) as (x & w6 & E6 & Hp & Io6).
  assert (Forall (λ c, c ∈ all_chars) x) as Hall.
  { rewrite Hp. simpl. repeat (apply Forall_cons; split);
      [apply class_in_all_chars; tauto.. | exact Hrest]. }
  exists (string_of_list_ascii x), w6.
  rewrite list_ascii_of_string_of_list_ascii.
  split; [|split; [exact Hall|split]].
  - unfold __generate_strong_password.
    destruct (Z.ltb_spec L 4) as [?|_]; [lia|].
    unfold bind. fold all_chars. rewrite E1, E2, E3, E4, E5, E6. reflexivity.
  - apply forallb_forall. intros c Hc. apply all_chars_printable.
    rewrite Forall_forall in Hall. by apply Hall, list_elem_of_In.
  - assert (same_io w w6) as [? ?]; [|done].
    repeat (eapply same_io_trans; [eassumption|]). apply same_io_refl.
Qed.

(** The password that [create_new_auditor] generates keeps the policy. *)
Lemma default_password_policy (w : world) :
  ∃ plain w1,
    __generate_strong_password 10 w = (Return plain, w1) ∧
    String.length plain = 10%nat ∧
    has_class is_lower plain = true ∧ has_class is_upper plain = true ∧
    has_class is_digit plain = true ∧ has_class is_punct plain = true ∧
    same_io w w1.
Proof.
  destruct (generate_strong_password_ok 10 w)
    as (c1 & c2 & c3 & c4 & rest & x & w' & E & H1 & H2 & H3 & H4 & Hlen & Hp & Hio);
    [lia|].
  exists (string_of_list_ascii x), w'. split; [done|]. split.
  { rewrite length_string_of_list_ascii, (Permutation_length Hp). simpl.
    rewrite Hlen. reflexivity. }
  repeat split; try apply Hio.
  - eapply (has_class_intro _ _ _ c1 Hp);
      [apply list_elem_of_In; simpl; tauto | by apply ascii_lowercase_is_lower].
  - eapply (has_class_intro _ _ _ c2 Hp);
      [apply list_elem_of_In; simpl; tauto | by apply ascii_uppercase_is_upper].
  - eapply (has_class_intro _ _ _ c3 Hp);
      [apply list_elem_of_In; simpl; tauto | by apply digits_is_digit].
  - eapply (has_class_intro _ _ _ c4 Hp);
      [apply list_elem_of_In; simpl; tauto | by apply punctuation_is_punct].
Qed.

(** ** User provisioning, once more *)

Section ProvisioningProperties.
Context {FlaggedAudit DaySeries AuditorRow CounsellorRow : Type}.
Variable self : ManagerService FlaggedAudit DaySeries AuditorRow CounsellorRow.

(** [create_new_auditor], reduced on what the generator gives. *)
Lemma create_new_auditor_run (auditor_data : gmap string string)
    (w w1 : world) (plain : string) :
  __generate_strong_password 10 w = (Return plain, w1) →
  create_new_auditor self auditor_data w =
    let detail := "Internal server error occurred while creating new auditor" in
    match hash (pwd_context self) plain with
    | Fails e => (Raise (handled detail e), logged w1 [Call_hash plain])
    | Answers hashed =>
        let row := <["password" := hashed]> auditor_data in
        let w2 := logged w1 [Call_hash plain; Call_create_auditor row] in
        match create_auditor (repo self) row with
        | Answers true =>
            (Return {| NewUserCreatedSchema.success := true;
                       NewUserCreatedSchema.message := "Auditor created succesfully";
                       NewUserCreatedSchema.password := hashed |}, w2)
        | Answers false =>
            (Raise (HTTPException HTTP_500_INTERNAL_SERVER_ERROR detail), w2)
        | Fails e => (Raise (handled detail e), w2)
        end
    end.
Proof.
  intros Eg. unfold create_new_auditor. svc_unfold. rewrite Eg. svc_beta.
  rewrite lookup_insert_eq. svc_beta.
  destruct (hash (pwd_context self) plain) as [hashed|[]]; svc_beta;
    [|reflexivity..].
  rewrite insert_insert_eq.
  destruct (create_auditor (repo self) _) as [[|]|[]]; svc_beta;
    rewrite ?lookup_insert_eq; unfold logged; cbn [calls rand cookies];
    by rewrite <- ?app_assoc.
Qed.

(** X9. Whatever the collaborators do, [create_new_auditor] first asks the
    password context to hash the very string that
    [__generate_strong_password] returns for the default length in the
    world of the call: a password of length 10 that holds a lowercase
    letter, an uppercase letter, a digit and a punctuation character. *)
Theorem create_new_auditor_hashes_policy_password
    (auditor_data : gmap string string) (w : world) :
  ∃ plain w1 rest,
    __generate_strong_password 10 w = (Return plain, w1) ∧
    calls (snd (create_new_auditor self auditor_data w)) =
      (calls w ++ Call_hash plain :: rest)%list ∧
    String.length plain = 10%nat ∧
    has_class is_lower plain = true ∧ has_class is_upper plain = true ∧
    has_class is_digit plain = true ∧ has_class is_punct plain = true.
Proof.
  destruct (default_password_policy w)
    as (plain & w1 & Eg & Hlen & Hl & Hu & Hd & Hp & Hcalls & _).
  exists plain, w1.
  rewrite (create_new_auditor_run auditor_data w w1 plain Eg). cbv zeta.
  destruct (hash (pwd_context self) plain) as [hashed|e].
  - exists [Call_create_auditor (<["password" := hashed]> auditor_data)].
    split; [done|]. split; [|done].
    destruct (create_auditor (repo self) _) as [[|]|e];
      cbn [snd logged calls]; by rewrite Hcalls.
  - exists []. split; [done|]. split; [|done].
    cbn [snd logged calls]. by rewrite Hcalls.
Qed.

(** X10. The row handed to [repo.create_auditor] is the caller's data with
    the key [password] set to the hash: the generated plaintext is not in
    it, and every other key is as the caller gave it. *)
Theorem create_new_auditor_stores_hash
    (auditor_data : gmap string string) (w : world) :
  ∃ plain w1,
    __generate_strong_password 10 w = (Return plain, w1) ∧
    ∀ hashed,
      hash (pwd_context self) plain = Answers hashed →
      ∃ row,
        calls (snd (create_new_auditor self auditor_data w)) =
          (calls w ++ [Call_hash plain; Call_create_auditor row])%list ∧
        row !! "password" = Some hashed ∧
        ∀ k, k ≠ "password" → row !! k = auditor_data !! k.
Proof.
  destruct (default_password_policy w) as (plain & w1 & Eg & _ & _ & _ & _ & _ & Hcalls & _).
  exists plain, w1. split; [done|]. intros hashed Eh.
  exists (<["password" := hashed]> auditor_data).
  rewrite (create_new_auditor_run auditor_data w w1 plain Eg), Eh. cbv zeta.
  split; [|split].
  - destruct (create_auditor (repo self) _) as [[|]|e];
      cbn [snd logged calls]; by rewrite Hcalls.
  - apply lookup_insert_eq.
  - intros k Hk. by apply lookup_insert_ne.
Qed.

(** X11. [create_new_auditor] succeeds exactly when the password context
    answers a hash for the generated password and the repository answers
    [True] for the row holding that hash. *)
Theorem create_new_auditor_success_iff
    (auditor_data : gmap string string) (w : world) :
  is_raise (fst (create_new_auditor self auditor_data w)) = false ↔
  ∃ plain w1 hashed,
    __generate_strong_password 10 w = (Return plain, w1) ∧
    hash (pwd_context self) plain = Answers hashed ∧
    create_auditor (repo self) (<["password" := hashed]> auditor_data) = Answers true.
Proof.
  destruct (default_password_policy w) as (plain & w1 & Eg & _).
  rewrite (create_new_auditor_run auditor_data w w1 plain Eg). cbv zeta.
  split.
  - destruct (hash (pwd_context self) plain) as [hashed|e] eqn:Eh; [|done].
    destruct (create_auditor (repo self) _) as [[|]|e] eqn:Ec; try done.
    intros _. by exists plain, w1, hashed.
  - intros (plain' & w1' & hashed & Eg' & Eh & Ec).
    rewrite Eg in Eg'. injection Eg' as <- <-. by rewrite Eh, Ec.
Qed.

(** X12. A role other than [auditor] and [counsellor] is refused with 400
    Bad Request before anything happens: no call, no random draw. *)
Theorem add_new_user_unknown_role
    (role name email phone auditor_id manager_id : string) (w : world) :
  role ≠ "auditor" → role ≠ "counsellor" →
  add_new_user self role name email phone auditor_id manager_id w =
    (Raise (HTTPException HTTP_400_BAD_REQUEST
              "No matching role to add, the role should be auditor or counsellor"), w).
Proof.
  intros Ha Hc. unfold add_new_user.
  destruct (String.eqb_spec role "auditor"); [done|].
  destruct (String.eqb_spec role "counsellor"); [done|]. reflexivity.
Qed.

(** X13. [add_new_user] adds nothing to the method it picks: for the role
    [auditor] it is [create_new_auditor] on the four fields (the auditor
    id it was given is dropped), for the role [counsellor] it is
    [create_new_counsellor] on the five fields. *)
Theorem add_new_user_dispatch
    (name email phone auditor_id manager_id : string) (w : world) :
  add_new_user self "auditor" name email phone auditor_id manager_id w =
    create_new_auditor self
      (list_to_map [("email", email); ("name", name); ("phone", phone);
                    ("manager_id", manager_id)]) w ∧
  add_new_user self "counsellor" name email phone auditor_id manager_id w =
    create_new_counsellor self
      (list_to_map [("email", email); ("name", name); ("phone", phone);
                    ("manager_id", manager_id); ("auditor_id", auditor_id)]) w.
Proof.
  split.
  - unfold add_new_user.
    change (String.eqb "auditor" "auditor") with true. cbv iota.
    unfold create_new_auditor. apply except_http_nested.
  - unfold add_new_user.
    change (String.eqb "counsellor" "auditor") with false.
    change (String.eqb "counsellor" "counsellor") with true. cbv iota.
    unfold create_new_counsellor. apply except_http_nested.
Qed.

(** [create_new_counsellor], reduced on the auditor id of its data. *)
Lemma create_new_counsellor_run (counsellor_data : gmap string string)
    (auditor_id : string) (w : world) :
  counsellor_data !! "auditor_id" = Some auditor_id → auditor_id ≠ "" →
  create_new_counsellor self counsellor_data w =
    let detail := "Internal server error occurred while creating new counsellor" in
    let w1 := logged w [Call_create_counsellor counsellor_data] in
    match create_counsellor (repo self) counsellor_data with
    | Answers true =>
        (Return {| NewUserCreatedSchema.success := true;
                   NewUserCreatedSchema.message := "Counsellor created succesfully";
                   NewUserCreatedSchema.password := "Not needed" |}, w1)
    | Answers false =>
        (Raise (HTTPException HTTP_500_INTERNAL_SERVER_ERROR detail), w1)
    | Fails e => (Raise (handled detail e), w1)
    end.
Proof.
  intros Hk Hne. unfold create_new_counsellor. svc_unfold. rewrite Hk. svc_beta.
  rewrite (eqb_empty_false _ Hne).
  by destruct (create_counsellor (repo self) counsellor_data) as [[|]|[]].
Qed.

(** X14. Creating a counsellor with an auditor id makes exactly one call,
    [repo.create_counsellor] on the data as given, and draws no random
    number. On [True] the placeholder password [Not needed] is returned;
    on [False] the call fails with status 500; an [HTTPException] raised
    by the repository comes out as it is, and any other exception it
    raises becomes status 500. *)
Theorem create_new_counsellor_outcomes
    (counsellor_data : gmap string string) (auditor_id : string) (w : world) :
  counsellor_data !! "auditor_id" = Some auditor_id → auditor_id ≠ "" →
  let result := create_new_counsellor self counsellor_data w in
  snd result = logged w [Call_create_counsellor counsellor_data] ∧
  (create_counsellor (repo self) counsellor_data = Answers true →
   fst result =
     Return {| NewUserCreatedSchema.success := true;
               NewUserCreatedSchema.message := "Counsellor created succesfully";
               NewUserCreatedSchema.password := "Not needed" |}) ∧
  (create_counsellor (repo self) counsellor_data = Answers false →
   fst result =
     Raise (HTTPException HTTP_500_INTERNAL_SERVER_ERROR
              "Internal server error occurred while creating new counsellor")) ∧
  (∀ status detail,
     create_counsellor (repo self) counsellor_data =
       Fails (HTTPException status detail) →
     fst result = Raise (HTTPException status detail)) ∧
  (∀ e,
     create_counsellor (repo self) counsellor_data = Fails e →
     raw_exception (Raise e : outcome bool) = true →
     fst result =
       Raise (HTTPException HTTP_500_INTERNAL_SERVER_ERROR
                "Internal server error occurred while creating new counsellor")).
Proof.
  intros Hk Hne result. subst result.
  rewrite (create_new_counsellor_run counsellor_data auditor_id w Hk Hne).
  cbv zeta. split; [|split; [|split; [|split]]].
  - by destruct (create_counsellor (repo self) counsellor_data) as [[|]|e].
  - by intros ->.
  - by intros ->.
  - by intros status detail ->.
  - intros e -> He. by destruct e.
Qed.

(** X15. Data without the key [auditor_id] never reaches the repository:
    the [KeyError] is turned into status 500 and the world stays as it
    was. *)
Theorem create_new_counsellor_missing_key
    (counsellor_data : gmap string string) (w : world) :
  counsellor_data !! "auditor_id" = None →
  create_new_counsellor self counsellor_data w =
    (Raise (HTTPException HTTP_500_INTERNAL_SERVER_ERROR
              "Internal server error occurred while creating new counsellor"), w).
Proof.
  intros Hk. unfold create_new_counsellor. svc_unfold. by rewrite Hk.
Qed.

End ProvisioningProperties.

(** ** Analytics, once more *)

Section AnalyticsProperties.
Context {FlaggedAudit DaySeries AuditorRow CounsellorRow : Type}.
Variable self : ManagerService FlaggedAudit DaySeries AuditorRow CounsellorRow.

Lemma truthy_dict_Some {V} (d : option (gmap string V)) (m : gmap string V) :
  truthy_dict d = Some m → d = Some m ∧ m ≠ ∅.
Proof.
  destruct d as [m'|]; [|done]. unfold truthy_dict.
  destruct (decide (m' = ∅)); [done|]. by intros [= <-].
Qed.

Lemma truthy_list_Some {A} (l : option (list A)) (l' : list A) :
  truthy_list l = Some l' → l = Some l' ∧ l' ≠ [].
Proof. destruct l as [[|x l]|]; [done| |done]. by intros [= <-]. Qed.

(** X16. Whenever [get_auditors_analytics] succeeds, the argument had an
    id, exactly two repository calls were made with it, the roster in the
    response is the non-empty roster the repository answered, and the two
    counts are the values under [number_of_auditors] and
    [total_audited_calls] of the dictionary it answered. *)
Theorem get_auditors_analytics_success
    (o : pyobj) (w w' : world) (r : AuditorAnalyticsResponse.t AuditorRow) :
  get_auditors_analytics self o w = (Return r, w') →
  ∃ manager_id auditors_data,
    attr_id o = Some manager_id ∧
    get_auditor_and_audited_call_counts (repo self) manager_id =
      Answers (Some auditors_data) ∧
    get_auditors (repo self) manager_id =
      Answers (Some (AuditorAnalyticsResponse.auditors r)) ∧
    AuditorAnalyticsResponse.auditors r ≠ [] ∧
    auditors_data !! "number_of_auditors" =
      Some (AuditorAnalyticsResponse.number_of_auditors r) ∧
    auditors_data !! "total_audited_calls" =
      Some (AuditorAnalyticsResponse.total_audited_calls r) ∧
    w' = logged w [Call_get_auditor_and_audited_call_counts manager_id;
                   Call_get_auditors manager_id].
Proof.
  unfold get_auditors_analytics. svc_unfold.
  destruct (attr_id o) as [manager_id|]; svc_beta; [|discriminate].
  destruct (get_auditor_and_audited_call_counts (repo self) manager_id)
    as [auditors_data|[]] eqn:Ea; svc_beta; [|discriminate..].
  destruct (get_auditors (repo self) manager_id) as [auditors|[]] eqn:Er;
    svc_beta; [|discriminate..].
  destruct (truthy_dict auditors_data) as [d|] eqn:Ed; svc_beta; [|discriminate].
  destruct (truthy_list auditors) as [l|] eqn:El; svc_beta; [|discriminate].
  apply truthy_dict_Some in Ed as [-> _]. apply truthy_list_Some in El as [-> Hl].
  destruct (d !! "number_of_auditors") as [n|] eqn:En; svc_beta; [|discriminate].
  destruct (d !! "total_audited_calls") as [t|] eqn:Et; svc_beta; [|discriminate].
  intros [= <- <-]. exists manager_id, d.
  cbn [AuditorAnalyticsResponse.auditors AuditorAnalyticsResponse.number_of_auditors
       AuditorAnalyticsResponse.total_audited_calls].
  repeat split; try done. unfold logged. cbn [calls rand cookies].
  by rewrite <- ?app_assoc.
Qed.

(** X17. An empty roster is an error, not an empty report: when the
    aggregate query answers (whatever it answers) and the repository then
    answers the empty list of auditors (of counsellors), the call fails
    with status 500 after both repository calls. *)
Theorem empty_roster_is_internal_error (o : pyobj) (manager_id : string) (w : world)
    (data : option (gmap string Z)) :
  attr_id o = Some manager_id →
  (get_auditor_and_audited_call_counts (repo self) manager_id = Answers data →
   get_auditors (repo self) manager_id = Answers (Some []) →
   get_auditors_analytics self o w =
     (Raise (HTTPException HTTP_500_INTERNAL_SERVER_ERROR
               "Internal server error occurred while  getting auditors data"),
      logged w [Call_get_auditor_and_audited_call_counts manager_id;
                Call_get_auditors manager_id])) ∧
  (get_counsellor_data (repo self) manager_id = Answers data →
   get_counsellors (repo self) manager_id = Answers (Some []) →
   get_counsellor_analysis self o w =
     (Raise (HTTPException HTTP_500_INTERNAL_SERVER_ERROR
               "Internal sever error occurred while fetching counsellor data"),
      logged w [Call_get_counsellor_data manager_id;
                Call_get_counsellors manager_id])).
Proof.
  intros Hid. split; intros Ed El.
  - unfold get_auditors_analytics. svc_unfold. rewrite Hid. svc_beta.
    rewrite Ed. svc_beta. rewrite El. svc_beta.
    unfold logged. cbn [calls rand cookies]. rewrite <- app_assoc.
    by destruct (truthy_dict data).
  - unfold get_counsellor_analysis. svc_unfold. rewrite Hid. svc_beta.
    rewrite Ed. svc_beta. rewrite El. svc_beta.
    unfold logged. cbn [calls rand cookies]. by rewrite <- app_assoc.
Qed.

(** X18. A dictionary that lacks a key the response needs is an error
    too: with a non-empty roster and a non-empty dictionary, a missing
    [number_of_auditors] or [total_audited_calls] (a missing
    [total_counsellors]) gives status 500 with the method's generic
    detail, after both repository calls. *)
Theorem missing_count_key_is_internal_error
    (o : pyobj) (manager_id : string) (w : world) (d : gmap string Z) :
  attr_id o = Some manager_id → d ≠ ∅ →
  (∀ a l, get_auditor_and_audited_call_counts (repo self) manager_id =
            Answers (Some d) →
          get_auditors (repo self) manager_id = Answers (Some (a :: l)) →
          d !! "number_of_auditors" = None ∨ d !! "total_audited_calls" = None →
          get_auditors_analytics self o w =
            (Raise (HTTPException HTTP_500_INTERNAL_SERVER_ERROR
                      "Internal server error while getting audit analysis."),
             logged w [Call_get_auditor_and_audited_call_counts manager_id;
                       Call_get_auditors manager_id])) ∧
  (∀ c l, get_counsellor_data (repo self) manager_id = Answers (Some d) →
          get_counsellors (repo self) manager_id = Answers (Some (c :: l)) →
          d !! "total_counsellors" = None →
          get_counsellor_analysis self o w =
            (Raise (HTTPException HTTP_500_INTERNAL_SERVER_ERROR
                      "Internal server error while getting counsellor analysis."),
             logged w [Call_get_counsellor_data manager_id;
                       Call_get_counsellors manager_id])).
Proof.
  intros Hid Hd. split.
  - intros a l Ed El Hk. unfold get_auditors_analytics. svc_unfold.
    rewrite Hid. svc_beta. rewrite Ed. svc_beta. rewrite El. svc_beta.
    unfold truthy_dict, truthy_list. destruct (decide (d = ∅)); [done|]. svc_beta.
    unfold logged. cbn [calls rand cookies]. rewrite <- app_assoc.
    destruct Hk as [Hk|Hk].
    + by rewrite Hk.
    + destruct (d !! "number_of_auditors"); svc_beta; by rewrite ?Hk.
  - intros c l Ed El Hk. unfold get_counsellor_analysis. svc_unfold.
    rewrite Hid. svc_beta. rewrite Ed. svc_beta. rewrite El. svc_beta.
    unfold truthy_dict, truthy_list. destruct (decide (d = ∅)); [done|]. svc_beta.
    unfold logged. cbn [calls rand cookies]. rewrite <- app_assoc.
    by rewrite Hk.
Qed.

(** X19. [get_flagged_audits] returns the list of the repository as it
    is: whatever list is answered, empty or not, the call succeeds after
    that one repository call and the response carries exactly that list. *)
Theorem get_flagged_audits_passes_list_through
    (o : pyobj) (manager_id : string) (w : world) (flagged_audits : list FlaggedAudit) :
  attr_id o = Some manager_id →
  get_all_latest_flagged_audit (repo self) manager_id = Answers (Some flagged_audits) →
  ∃ r,
    get_flagged_audits self o w =
      (Return r, logged w [Call_get_all_latest_flagged_audit manager_id]) ∧
    FlaggedAuditsResponse.success r = true ∧
    FlaggedAuditsResponse.flagged_audits r = flagged_audits.
Proof.
  intros Hid El. unfold get_flagged_audits. svc_unfold.
  rewrite Hid. svc_beta. rewrite El. svc_beta.
  destruct flagged_audits as [|a l]; eexists; by split.
Qed.

(** A fetch that raises is another matter: the later fetches are not
    made, and an [HTTPException] of the repository comes out as it is. *)
Lemma get_manager_analytics_reraises
    (m : Manager.t) (w : world) (status : http_status) (detail : string) :
  get_all_leads (repo self) (Manager.id m) = Fails (HTTPException status detail) →
  get_manager_analytics self (ManagerObj m) w =
    (Raise (HTTPException status detail),
     logged w [Call_get_all_leads (Manager.id m)]).
Proof.
  intros E. unfold get_manager_analytics. svc_unfold.
  cbn [isinstance_Manager attr_id negb]. svc_beta. by rewrite E.
Qed.

(** X20. [get_manager_analytics] does not stop at the first missing
    value: as long as no fetch raises, all five repository calls are
    made, in the order of the source, whatever each one answers. *)
Theorem get_manager_analytics_fetches_all_five
    (m : Manager.t) (w : world)
    (leads audits flagged_calls : option Z)
    (latest_flagged_audit : option (list FlaggedAudit))
    (last_7_days_data : option DaySeries) :
  get_all_leads (repo self) (Manager.id m) = Answers leads →
  get_all_audit (repo self) (Manager.id m) = Answers audits →
  get_all_flagged_call (repo self) (Manager.id m) = Answers flagged_calls →
  get_all_latest_flagged_audit (repo self) (Manager.id m) = Answers latest_flagged_audit →
  get_last_7_days_audited_calls (repo self) (Manager.id m) = Answers last_7_days_data →
  snd (get_manager_analytics self (ManagerObj m) w) =
    logged w [Call_get_all_leads (Manager.id m);
              Call_get_all_audit (Manager.id m);
              Call_get_all_flagged_call (Manager.id m);
              Call_get_all_latest_flagged_audit (Manager.id m);
              Call_get_last_7_days_audited_calls (Manager.id m)].
Proof.
  intros E1 E2 E3 E4 E5.
  unfold get_manager_analytics. svc_unfold. cbn [isinstance_Manager attr_id negb].
  svc_beta. rewrite E1; svc_beta. rewrite E2; svc_beta. rewrite E3; svc_beta.
  rewrite E4; svc_beta. rewrite E5; svc_beta.
  unfold logged. cbn [calls rand cookies]. rewrite <- !app_assoc.
  by destruct (any _).
Qed.

End AnalyticsProperties.

(** ** Login, once more *)

Section LoginProperties.
Context {FlaggedAudit DaySeries AuditorRow CounsellorRow : Type}.
Variable self : ManagerService FlaggedAudit DaySeries AuditorRow CounsellorRow.

Lemma truthy_str_None (t : option string) :
  t = None ∨ t = Some "" → truthy_str t = None.
Proof. by intros [->| ->]. Qed.

(** Brings two logs of the same calls to the same shape. *)
Ltac log_norm := cbn [rand calls cookies]; rewrite <- ?app_assoc; cbn [app].

(** [login_manager] past the password check. *)
Lemma login_manager_verified (email password : string) (w : world) (m : Manager.t) :
  get_manager (repo self) email = Answers (Some m) →
  verify (pwd_context self) password (Manager.password m) = Answers true →
  login_manager self email password w =
    let w2 := logged w [Call_get_manager email;
                        Call_verify password (Manager.password m);
                        Call_create_jwt_token (session_claims m)] in
    match create_jwt_token (jwt_util self) (session_claims m) with
    | Fails e =>
        (Raise (handled "Internal server error occurred while manager login" e), w2)
    | Answers token =>
        match truthy_str token with
        | None =>
            (Raise (HTTPException HTTP_500_INTERNAL_SERVER_ERROR
                      "Failed to generate JWT token"), w2)
        | Some token =>
            let w3 := logged w2 [Call_create_refresh_token (refresh_claims m)] in
            match create_refresh_token (jwt_util self) (refresh_claims m) with
            | Fails e =>
                (Raise (handled "Internal server error occurred while manager login" e),
                 w3)
            | Answers refresh_token =>
                match truthy_str refresh_token with
                | None =>
                    (Raise (HTTPException HTTP_500_INTERNAL_SERVER_ERROR
                              "Failed to generate refresh token"), w3)
                | Some refresh_token =>
                    (Return {| LoginSchema.success := true;
                               LoginSchema.message := "Manager logged in succesfully.";
                               LoginSchema.user :=
                                 {| User.id := Manager.id m;
                                    User.name := Manager.name m;
                                    User.email := Manager.email m;
                                    User.role := "manager" |} |},
                     {| rand := rand w3; calls := calls w3;
                        cookies :=
                          cookies w3 ++
                          [ {| key := "token"; value := token; httponly := true;
                               secure := false; samesite := "lax";
                               max_age := 86400 |};
                            {| key := "refresh_token"; value := refresh_token;
                               httponly := true; secure := true;
                               samesite := "lax"; max_age := 604800 |} ] |})
                end
            end
        end
    end.
Proof.
  intros Em Ev. unfold login_manager. svc_unfold. svc_beta.
  rewrite Em; svc_beta. rewrite Ev; svc_beta.
  fold (session_claims m). fold (refresh_claims m). unfold logged.
  destruct (create_jwt_token (jwt_util self) (session_claims m)) as [t|[]];
    svc_beta; [|log_norm; reflexivity..].
  destruct (truthy_str t) as [t'|]; svc_beta; [|log_norm; reflexivity].
  destruct (create_refresh_token (jwt_util self) (refresh_claims m)) as [r|[]];
    svc_beta; [|log_norm; reflexivity..].
  destruct (truthy_str r) as [r'|]; svc_beta; log_norm; reflexivity.
Qed.

(** X21. After a correct password, a session token that comes back as
    [None] or empty fails the login with status 500 before the refresh
    token is ever requested; a refresh token that comes back as [None] or
    empty fails it with status 500 as well; in both cases no cookie is
    set. *)
Theorem login_manager_token_failures
    (email password : string) (w : world) (m : Manager.t) :
  get_manager (repo self) email = Answers (Some m) →
  verify (pwd_context self) password (Manager.password m) = Answers true →
  (∀ token,
     create_jwt_token (jwt_util self) (session_claims m) = Answers token →
     token = None ∨ token = Some "" →
     login_manager self email password w =
       (Raise (HTTPException HTTP_500_INTERNAL_SERVER_ERROR
                 "Failed to generate JWT token"),
        logged w [Call_get_manager email;
                  Call_verify password (Manager.password m);
                  Call_create_jwt_token (session_claims m)])) ∧
  (∀ token refresh_token,
     create_jwt_token (jwt_util self) (session_claims m) = Answers (Some token) →
     token ≠ "" →
     create_refresh_token (jwt_util self) (refresh_claims m) = Answers refresh_token →
     refresh_token = None ∨ refresh_token = Some "" →
     login_manager self email password w =
       (Raise (HTTPException HTTP_500_INTERNAL_SERVER_ERROR
                 "Failed to generate refresh token"),
        logged w [Call_get_manager email;
                  Call_verify password (Manager.password m);
                  Call_create_jwt_token (session_claims m);
                  Call_create_refresh_token (refresh_claims m)])).
Proof.
  intros Em Ev. rewrite (login_manager_verified email password w m Em Ev). cbv zeta.
  split.
  - intros token -> Ht. by rewrite (truthy_str_None _ Ht).
  - intros token refresh_token -> Ht -> Hr.
    rewrite (truthy_str_Some _ Ht), (truthy_str_None _ Hr).
    unfold logged. cbn [calls rand cookies]. by rewrite <- !app_assoc.
Qed.

(** X22. A login succeeds exactly when the repository knows the email, the
    password verifies against the stored hash, and both tokens come back
    non-empty. *)
Theorem login_manager_success_iff (email password : string) (w : world) :
  is_raise (fst (login_manager self email password w)) = false ↔
  ∃ m token refresh_token,
    get_manager (repo self) email = Answers (Some m) ∧
    verify (pwd_context self) password (Manager.password m) = Answers true ∧
    create_jwt_token (jwt_util self) (session_claims m) = Answers (Some token) ∧
    token ≠ "" ∧
    create_refresh_token (jwt_util self) (refresh_claims m) =
      Answers (Some refresh_token) ∧
    refresh_token ≠ "".
Proof.
  split.
  - destruct (get_manager (repo self) email) as [[m|]|e] eqn:Em.
    2,3: by (unfold login_manager; svc_unfold; rewrite Em; try destruct e).
    destruct (verify (pwd_context self) password (Manager.password m))
      as [[|]|e] eqn:Ev.
    2,3: by (unfold login_manager; svc_unfold; rewrite Em; svc_beta; rewrite Ev;
             try destruct e).
    rewrite (login_manager_verified email password w m Em Ev). cbv zeta.
    destruct (create_jwt_token (jwt_util self) (session_claims m))
      as [t|e] eqn:Ej; [|by destruct e].
    destruct (truthy_str t) as [t'|] eqn:Et; [|done].
    destruct (create_refresh_token (jwt_util self) (refresh_claims m))
      as [r|e] eqn:Er; [|by destruct e].
    destruct (truthy_str r) as [r'|] eqn:Etr; [|done].
    apply truthy_str_nonempty in Et as [-> Ht], Etr as [-> Hr].
    intros _. by exists m, t', r'.
  - intros (m & token & refresh_token & Em & Ev & Ej & Ht & Er & Hr).
    rewrite (login_manager_verified email password w m Em Ev). cbv zeta.
    by rewrite Ej, (truthy_str_Some _ Ht), Er, (truthy_str_Some _ Hr).
Qed.

End LoginProperties.



(** ** The further properties at work on the concrete deployment *)

Lemma activation_accepted_names_id_witness :
  deactivate_auditor demo_accounts "aud-1" w0 =
    (Return {| BaseResponse.success := true;
               BaseResponse.message :=
                 "Succesfully deactivated auditor with id: aud-1" |}, w0).
Proof.
  exact (proj1 (activation_accepted_names_id demo_accounts "aud-1" w0 w0
                  ltac:(discriminate)) eq_refl).
Defined.

Lemma activation_refused_is_internal_error_witness :
  activate_counsellor demo_accounts "ghost" w0 =
    (Raise (HTTPException HTTP_500_INTERNAL_SERVER_ERROR
              "Internal server error occurred while activate counsellor"), w0).
Proof.
  exact (proj2 (proj2 (proj2 (activation_refused_is_internal_error
                                demo_accounts "ghost" w0 w0 ltac:(discriminate))))
           eq_refl).
Defined.

Lemma unflag_flagged_audit_outcomes_witness :
  unflag_flagged_audit demo_accounts (AuditorObj demo_auditor) "audit-7" w0 =
    (Raise (HTTPException HTTP_401_UNAUTHORIZED
              "Unauthorised access, user is not manager."), w0) ∧
  unflag_flagged_audit demo_accounts (ManagerObj demo_manager) "audit-7" w0 =
    (Return {| BaseResponse.success := true;
               BaseResponse.message :=
                 "Succesfully unflagged given audit with id: audit-7" |}, w0) ∧
  unflag_flagged_audit demo_accounts (ManagerObj demo_manager) "ghost" w0 =
    (Raise (HTTPException HTTP_500_INTERNAL_SERVER_ERROR
              "Internal server error occurred while unflagging audit"), w0).
Proof.
  split; [|split].
  - exact (proj1 (unflag_flagged_audit_outcomes demo_accounts
                    (AuditorObj demo_auditor) "audit-7" w0 w0) eq_refl).
  - exact (proj1 (proj2 (unflag_flagged_audit_outcomes demo_accounts
                           (ManagerObj demo_manager) "audit-7" w0 w0))
             eq_refl eq_refl).
  - exact (proj2 (proj2 (unflag_flagged_audit_outcomes demo_accounts
                           (ManagerObj demo_manager) "ghost" w0 w0))
             eq_refl eq_refl).
Defined.

Lemma add_new_manager_outcomes_witness :
  add_new_manager demo_accounts (list_to_map [("email", "noor@example.com")]) w0 =
    (Return {| BaseResponse.success := true;
               BaseResponse.message := "Manager created successfully." |}, w0).
Proof.
  exact (proj1 (add_new_manager_outcomes demo_accounts
                  (list_to_map [("email", "noor@example.com")]) w0 w0) eq_refl).
Defined.

Lemma generate_strong_password_alphabet_witness :
  ∃ pw w',
    __generate_strong_password 4 w0 = (Return pw, w') ∧
    Forall (λ c, c ∈ all_chars) (list_ascii_of_string pw) ∧
    forallb (in_range 33 126) (list_ascii_of_string pw) = true ∧
    calls w' = calls w0 ∧ cookies w' = cookies w0.
Proof. apply (generate_strong_password_alphabet 4 w0). lia. Defined.

Lemma create_new_auditor_stores_hash_witness :
  ∃ plain w1,
    __generate_strong_password 10 w0 = (Return plain, w1) ∧
    ∃ row,
      calls (snd (create_new_auditor (demo_service (Some 8%Z) (Some []))
                    (list_to_map [("email", "asha@example.com")]) w0)) =
        [Call_hash plain; Call_create_auditor row] ∧
      row !! "password" = Some ("$2b$12$" ++ plain) ∧
      row !! "email" = Some "asha@example.com".
Proof.
  destruct (create_new_auditor_stores_hash (demo_service (Some 8%Z) (Some []))
              (list_to_map [("email", "asha@example.com")]) w0)
    as (plain & w1 & Eg & Hrow).
  exists plain, w1. split; [exact Eg|].
  destruct (Hrow ("$2b$12$" ++ plain) eq_refl) as (row & Hcalls & Hpw & Hrest).
  exists row. split; [exact Hcalls|]. split; [exact Hpw|].
  rewrite (Hrest "email" ltac:(discriminate)). reflexivity.
Defined.

Lemma add_new_user_unknown_role_witness :
  add_new_user (demo_service (Some 8%Z) (Some []))
    "manager" "Noor" "noor@example.com" "5550101" "" "mgr-1" w0 =
    (Raise (HTTPException HTTP_400_BAD_REQUEST
              "No matching role to add, the role should be auditor or counsellor"), w0).
Proof.
  exact (add_new_user_unknown_role (demo_service (Some 8%Z) (Some []))
           "manager" "Noor" "noor@example.com" "5550101" "" "mgr-1" w0
           ltac:(discriminate) ltac:(discriminate)).
Defined.

Lemma create_new_counsellor_outcomes_witness :
  fst (create_new_counsellor (demo_service (Some 8%Z) (Some []))
         (list_to_map [("name", "Ravi"); ("auditor_id", "aud-1")]) w0) =
    Return {| NewUserCreatedSchema.success := true;
              NewUserCreatedSchema.message := "Counsellor created succesfully";
              NewUserCreatedSchema.password := "Not needed" |}.
Proof.
  exact (proj1 (proj2 (create_new_counsellor_outcomes
                         (demo_service (Some 8%Z) (Some []))
                         (list_to_map [("name", "Ravi"); ("auditor_id", "aud-1")])
                         "aud-1" w0 eq_refl ltac:(discriminate)))
           eq_refl).
Defined.

Lemma create_new_counsellor_missing_key_witness :
  create_new_counsellor (demo_service (Some 8%Z) (Some []))
    (list_to_map [("name", "Ravi")]) w0 =
    (Raise (HTTPException HTTP_500_INTERNAL_SERVER_ERROR
              "Internal server error occurred while creating new counsellor"), w0).
Proof.
  exact (create_new_counsellor_missing_key (demo_service (Some 8%Z) (Some []))
           (list_to_map [("name", "Ravi")]) w0 eq_refl).
Defined.

Lemma get_auditors_analytics_success_witness :
  ∃ manager_id auditors_data,
    attr_id (ManagerObj demo_manager) = Some manager_id ∧
    get_auditor_and_audited_call_counts (demo_repo (Some 8%Z) (Some [])) manager_id =
      Answers (Some auditors_data) ∧
    auditors_data !! "number_of_auditors" = Some 1%Z ∧
    auditors_data !! "total_audited_calls" = Some 8%Z.
Proof.
  destruct (get_auditors_analytics_success (demo_service (Some 8%Z) (Some []))
              (ManagerObj demo_manager) w0
              (logged w0 [Call_get_auditor_and_audited_call_counts "mgr-1";
                          Call_get_auditors "mgr-1"])
              {| AuditorAnalyticsResponse.success := true;
                 AuditorAnalyticsResponse.message :=
                   "Succesfully got the auditors data under manager";
                 AuditorAnalyticsResponse.number_of_auditors := 1;
                 AuditorAnalyticsResponse.total_audited_calls := 8;
                 AuditorAnalyticsResponse.auditors := [demo_auditor] |}
              eq_refl)
    as (manager_id & auditors_data & Hid & Hdata & _ & _ & Hn & Ht & _).
  exists manager_id, auditors_data. by repeat split.
Defined.

Lemma empty_roster_is_internal_error_witness :
  get_counsellor_analysis
    (roster_service (Some (list_to_map [("total_counsellors", 0%Z)])) (Some []) (Some []))
    (ManagerObj demo_manager) w0 =
    (Raise (HTTPException HTTP_500_INTERNAL_SERVER_ERROR
              "Internal sever error occurred while fetching counsellor data"),
     logged w0 [Call_get_counsellor_data "mgr-1"; Call_get_counsellors "mgr-1"]).
Proof.
  exact (proj2 (empty_roster_is_internal_error
                  (roster_service (Some (list_to_map [("total_counsellors", 0%Z)]))
                     (Some []) (Some []))
                  (ManagerObj demo_manager) "mgr-1" w0
                  (Some (list_to_map [("total_counsellors", 0%Z)])) eq_refl)
           eq_refl eq_refl).
Defined.

Lemma missing_count_key_is_internal_error_witness :
  get_counsellor_analysis
    (roster_service (Some (list_to_map [("total_calls_made", 40%Z)]))
       (Some [demo_auditor]) (Some [demo_counsellor]))
    (ManagerObj demo_manager) w0 =
    (Raise (HTTPException HTTP_500_INTERNAL_SERVER_ERROR
              "Internal server error while getting counsellor analysis."),
     logged w0 [Call_get_counsellor_data "mgr-1"; Call_get_counsellors "mgr-1"]).
Proof.
  exact (proj2 (missing_count_key_is_internal_error
                  (roster_service (Some (list_to_map [("total_calls_made", 40%Z)]))
                     (Some [demo_auditor]) (Some [demo_counsellor]))
                  (ManagerObj demo_manager) "mgr-1" w0
                  (list_to_map [("total_calls_made", 40%Z)])
                  eq_refl (insert_non_empty _ _ _))
           demo_counsellor [] eq_refl eq_refl eq_refl).
Defined.

Lemma get_flagged_audits_passes_list_through_witness :
  ∃ r,
    get_flagged_audits (demo_service (Some 8%Z) (Some ["audit-7"; "audit-9"]))
      (ManagerObj demo_manager) w0 =
      (Return r, logged w0 [Call_get_all_latest_flagged_audit "mgr-1"]) ∧
    FlaggedAuditsResponse.success r = true ∧
    FlaggedAuditsResponse.flagged_audits r = ["audit-7"; "audit-9"].
Proof.
  exact (get_flagged_audits_passes_list_through
           (demo_service (Some 8%Z) (Some ["audit-7"; "audit-9"]))
           (ManagerObj demo_manager) "mgr-1" w0 ["audit-7"; "audit-9"]
           eq_refl eq_refl).
Defined.

Lemma get_manager_analytics_fetches_all_five_witness :
  calls (snd (get_manager_analytics (roster_service None None None)
                (ManagerObj demo_manager) w0)) =
    [Call_get_all_leads "mgr-1"; Call_get_all_audit "mgr-1";
     Call_get_all_flagged_call "mgr-1"; Call_get_all_latest_flagged_audit "mgr-1";
     Call_get_last_7_days_audited_calls "mgr-1"].
Proof.
  rewrite (get_manager_analytics_fetches_all_five (roster_service None None None)
             demo_manager w0 (Some 12%Z) None (Some 2%Z) (Some ["audit-7"]) None
             eq_refl eq_refl eq_refl eq_refl eq_refl).
  reflexivity.
Defined.

Lemma login_manager_token_failures_witness :
  fst (login_manager (token_service (Some "") (Some "r"))
         "meera@example.com" "s3cret" w0) =
    Raise (HTTPException HTTP_500_INTERNAL_SERVER_ERROR "Failed to generate JWT token") ∧
  fst (login_manager (token_service (Some "t") None)
         "meera@example.com" "s3cret" w0) =
    Raise (HTTPException HTTP_500_INTERNAL_SERVER_ERROR
             "Failed to generate refresh token").
Proof.
  split.
  - rewrite (proj1 (login_manager_token_failures (token_service (Some "") (Some "r"))
                      "meera@example.com" "s3cret" w0 demo_manager eq_refl eq_refl)
               (Some "") eq_refl (or_intror eq_refl)).
    reflexivity.
  - rewrite (proj2 (login_manager_token_failures (token_service (Some "t") None)
                      "meera@example.com" "s3cret" w0 demo_manager eq_refl eq_refl)
               "t" None eq_refl ltac:(discriminate) eq_refl (or_introl eq_refl)).
    reflexivity.
Defined.

(** ** Two more inversions *)

Section Inversions.
Context {FlaggedAudit DaySeries AuditorRow CounsellorRow : Type}.
Variable self : ManagerService FlaggedAudit DaySeries AuditorRow CounsellorRow.

(** X24. Whenever a login succeeds, the user view is that of the manager
    the repository found for the email, the two cookies hold exactly the
    two tokens the token utility answered for that manager, and the calls
    made are the lookup, the password check and the two token requests, in
    this order. *)
Theorem login_manager_success_inversion
    (email password : string) (w w' : world) (resp : LoginSchema.t) :
  login_manager self email password w = (Return resp, w') →
  ∃ m token refresh_token,
    get_manager (repo self) email = Answers (Some m) ∧
    create_jwt_token (jwt_util self) (session_claims m) = Answers (Some token) ∧
    create_refresh_token (jwt_util self) (refresh_claims m) =
      Answers (Some refresh_token) ∧
    LoginSchema.user resp =
      {| User.id := Manager.id m; User.name := Manager.name m;
         User.email := Manager.email m; User.role := "manager" |} ∧
    cookies w' =
      (cookies w ++
       [ {| key := "token"; value := token; httponly := true;
            secure := false; samesite := "lax"; max_age := 86400 |};
         {| key := "refresh_token"; value := refresh_token; httponly := true;
            secure := true; samesite := "lax"; max_age := 604800 |} ])%list ∧
    calls w' =
      (calls w ++
       [ Call_get_manager email; Call_verify password (Manager.password m);
         Call_create_jwt_token (session_claims m);
         Call_create_refresh_token (refresh_claims m) ])%list.
Proof.
  destruct (get_manager (repo self) email) as [[m|]|e] eqn:Em.
  2,3: by (unfold login_manager; svc_unfold; rewrite Em; try destruct e).
  destruct (verify (pwd_context self) password (Manager.password m))
    as [[|]|e] eqn:Ev.
  2,3: by (unfold login_manager; svc_unfold; rewrite Em; svc_beta; rewrite Ev;
           try destruct e).
  rewrite (login_manager_verified self email password w m Em Ev). cbv zeta.
  destruct (create_jwt_token (jwt_util self) (session_claims m))
    as [t|e] eqn:Ej; [|by destruct e].
  destruct (truthy_str t) as [t'|] eqn:Et; [|done].
  destruct (create_refresh_token (jwt_util self) (refresh_claims m))
    as [r|e] eqn:Er; [|by destruct e].
  destruct (truthy_str r) as [r'|] eqn:Etr; [|done].
  apply truthy_str_nonempty in Et as [-> _], Etr as [-> _].
  intros [= <- <-]. exists m, t', r'.
  cbn [LoginSchema.user cookies calls logged]. rewrite <- ?app_assoc.
  by repeat split.
Qed.

(** X25. [get_flagged_audits] checks no type either: it reads only the
    [id] of its argument, so an argument without one fails with status 500
    before the repository is asked, and any object that has an id is
    served like a [Manager] of that id. *)
Theorem get_flagged_audits_reads_only_id (o : pyobj) (w : world) :
  (attr_id o = None →
   get_flagged_audits self o w =
     (Raise (HTTPException HTTP_500_INTERNAL_SERVER_ERROR
               "Internal server error while getting flagged audits."), w)) ∧
  (∀ m : Manager.t, attr_id o = Some (Manager.id m) →
     get_flagged_audits self o w = get_flagged_audits self (ManagerObj m) w).
Proof.
  split.
  - intros Hid. unfold get_flagged_audits. svc_unfold. by rewrite Hid.
  - intros m Hid. unfold get_flagged_audits, getattr_id. by rewrite Hid.
Qed.

End Inversions.

Lemma login_manager_success_inversion_witness :
  ∃ m token refresh_token,
    get_manager (demo_repo (Some 8%Z) (Some [])) "meera@example.com" =
      Answers (Some m) ∧
    create_jwt_token demo_jwt (session_claims m) = Answers (Some token) ∧
    create_refresh_token demo_jwt (refresh_claims m) = Answers (Some refresh_token) ∧
    cookies (snd (login_manager (demo_service (Some 8%Z) (Some []))
                    "meera@example.com" "s3cret" w0)) =
      [ {| key := "token"; value := token; httponly := true;
           secure := false; samesite := "lax"; max_age := 86400 |};
        {| key := "refresh_token"; value := refresh_token; httponly := true;
           secure := true; samesite := "lax"; max_age := 604800 |} ].
Proof.
  destruct (login_manager_success_inversion (demo_service (Some 8%Z) (Some []))
              "meera@example.com" "s3cret" w0
              (snd (login_manager (demo_service (Some 8%Z) (Some []))
                      "meera@example.com" "s3cret" w0))
              {| LoginSchema.success := true;
                 LoginSchema.message := "Manager logged in succesfully.";
                 LoginSchema.user :=
                   {| User.id := "mgr-1"; User.name := "Meera";
                      User.email := "meera@example.com"; User.role := "manager" |} |}
              eq_refl)
    as (m & token & refresh_token & Hm & Ht & Hr & _ & Hc & _).
  exists m, token, refresh_token. by repeat split.
Defined.

Lemma get_flagged_audits_reads_only_id_witness :
  get_flagged_audits (demo_service (Some 8%Z) (Some [])) NoneObj w0 =
    (Raise (HTTPException HTTP_500_INTERNAL_SERVER_ERROR
              "Internal server error while getting flagged audits."), w0).
Proof.
  exact (proj1 (get_flagged_audits_reads_only_id (demo_service (Some 8%Z) (Some []))
                  NoneObj w0) eq_refl).
Defined.
